(** * kuibit, examples/bins/plot_ah_found.py

    A shallow embedding of the script that plots the times at which the
    requested apparent horizons were found, and the properties of its
    plot, its log and its output file.

    The script is a sequence of calls on three collaborators: the
    [logging] module, kuibit's [SimDir] and [matplotlib.pyplot].  Each
    collaborator is modelled by the part of its state the script can
    change; the script itself is a computation in a monad that threads
    this state and propagates exceptions, in the order of the source. *)

From Stdlib Require Import ZArith List String Ascii QArith Bool Lia.
From Stdlib Require Import DecimalString DecimalZ.
Import ListNotations.

Local Open Scope string_scope.
Local Open Scope Z_scope.

(** ** Python built-ins used by the script *)

(** Exceptions.  [ValueError] is what the built-ins and pyplot raise;
    [CollaboratorError] stands for anything raised by the simulation
    directory reader (a missing directory, a malformed file). *)
Inductive exn : Type :=
| ValueError (msg : string)
| CollaboratorError (msg : string).

(** [str(h)] for a Python [int]: decimal digits, with a leading minus
    sign for negative numbers. *)
Definition str (h : Z) : string := NilZero.string_of_int (Z.to_int h).

(** [sep.join(parts)]. *)
Definition join (sep : string) (parts : list string) : string :=
  String.concat sep parts.

(** [repr] of a list of ints, as an f-string prints it. *)
Definition repr_list (l : list Z) : string :=
  "[" ++ join ", " (map str l) ++ "]".

(** [x in l]. *)
Definition py_in (x : Z) (l : list Z) : bool := existsb (Z.eqb x) l.

(** [l * n] on lists: [n] copies of [l], concatenated. *)
Definition list_mul {A : Type} (l : list A) (n : nat) : list A :=
  List.concat (repeat l n).

(** [min(l)] and [max(l)]; both raise on an empty sequence. *)
Definition py_min (l : list Z) : exn + Z :=
  match l with
  | [] => inl (ValueError "min() arg is an empty sequence")
  | x :: r => inr (fold_left Z.min r x)
  end.

Definition py_max (l : list Z) : exn + Z :=
  match l with
  | [] => inl (ValueError "max() arg is an empty sequence")
  | x :: r => inr (fold_left Z.max r x)
  end.

(** [int(s)] on the output of [str]: the signed decimal number read
    back. *)
Definition int_of_str (s : string) : option Z :=
  option_map Z.of_int (NilZero.int_of_string s).

(** [s.split(sep)] for a separator of one character: the fields of [s]
    between the separators, empty fields included. *)
Fixpoint split (sep : ascii) (s : string) : list string :=
  match s with
  | EmptyString => [EmptyString]
  | String c r =>
      if Ascii.eqb c sep then EmptyString :: split sep r
      else match split sep r with
           | [] => [String c EmptyString]
           | field :: fields => String c field :: fields
           end
  end.

(** [sep in s] for a character [sep]. *)
Fixpoint contains (sep : ascii) (s : string) : bool :=
  match s with
  | EmptyString => false
  | String c r => Ascii.eqb c sep || contains sep r
  end.

(** ** The parsed command line *)

(** The namespace returned by [kah.get_args]: the figure options added by
    [kah.add_figure_to_parser], the data directory options of
    [kah.init_argparse], and the script's own [--horizons]. *)
Record Args : Type := mkArgs {
  datadir : string;
  ignore_symlinks : bool;
  outdir : string;
  figname : option string;
  fig_extension : string;
  verbose : bool;
  horizons : list Z
}.

(** [--horizons] is declared with [nargs="+"] and [required=True]: the
    argument parser exits with a usage message unless at least one
    integer is given, so the list the script sees is never empty. *)
Definition parsed (args : Args) : Prop := horizons args <> [].

(** The same command line with [-v] given or not. *)
Definition with_verbose (v : bool) (args : Args) : Args :=
  mkArgs (datadir args) (ignore_symlinks args) (outdir args) (figname args)
         (fig_extension args) v (horizons args).

(** ** Logging *)

Inductive Level : Type := NOTSET | DEBUG | INFO | WARNING | ERROR | CRITICAL.

Definition levelno (l : Level) : Z :=
  match l with
  | NOTSET => 0 | DEBUG => 10 | INFO => 20
  | WARNING => 30 | ERROR => 40 | CRITICAL => 50
  end.

Record LogRecord : Type := mkLogRecord {
  levelname : Level;
  message : string
}.

(** ** The plot *)

Section Script.

(** Simulation times are floating-point numbers that the script passes
    from the reader to the plot without computing on them: their type
    is left open. *)
Context {time : Type}.

(** One call of [plt.scatter]: the two coordinate arrays, the marker and
    the marker size [s]. *)
Record PathCollection : Type := mkPathCollection {
  offsets_x : list time;
  offsets_y : list Z;
  marker : string;
  s : Q
}.

(** The points of a scatter series. *)
Definition points (c : PathCollection) : list (time * Z) :=
  combine (offsets_x c) (offsets_y c).

(** The current axes, as far as the script sets them.  [ylim] and
    [yticks] are [None] while matplotlib chooses them itself. *)
Record Axes : Type := mkAxes {
  collections : list PathCollection;
  ylabel : string;
  xlabel : string;
  minor_left : bool;
  ylim : option (Z * Z);
  yticks : option (list Z)
}.

Definition new_axes : Axes :=
  mkAxes [] "" "" true None None.

(** ** The state of a run *)

Record World : Type := mkWorld {
  rc_ready : bool;
  logger_level : Level;
  handler_format : option string;
  stderr : list LogRecord;
  gca : Axes;
  files : list (string * Axes)
}.

(** A process starts with an unconfigured logger, an empty figure and
    whatever files [fs] are on disk. *)
Definition start (fs : list (string * Axes)) : World :=
  mkWorld false NOTSET None [] new_axes fs.

Definition with_gca (f : Axes -> Axes) (w : World) : World :=
  mkWorld (rc_ready w) (logger_level w) (handler_format w) (stderr w)
          (f (gca w)) (files w).

(** ** Computations: state threaded, exceptions propagated *)

Definition M (A : Type) : Type := World -> (exn + A) * World.

Definition ret {A : Type} (a : A) : M A := fun w => (inr a, w).

Definition raise {A : Type} (e : exn) : M A := fun w => (inl e, w).

Definition bind {A B : Type} (m : M A) (k : A -> M B) : M B :=
  fun w =>
    match m w with
    | (inl e, w') => (inl e, w')
    | (inr a, w') => k a w'
    end.

Definition lift {A : Type} (r : exn + A) : M A := fun w => (r, w).

Definition modify (f : World -> World) : M unit := fun w => (inr tt, f w).

Notation "x <- m ;; k" := (bind m (fun x => k))
  (at level 61, m at next level, right associativity).
Notation "m ;; k" := (bind m (fun _ => k))
  (at level 61, right associativity).

(** [for x in l: body(x)]. *)
Fixpoint for_each {A : Type} (l : list A) (body : A -> M unit) : M unit :=
  match l with
  | [] => ret tt
  | x :: r => body x ;; for_each r body
  end.

(** ** logging *)

(** The level a logger without a level of its own inherits from the
    root logger. *)
Definition effective_level (w : World) : Level :=
  match logger_level w with
  | NOTSET => WARNING
  | l => l
  end.

(** A record reaches the user when the logger is enabled for its level
    and a handler takes it: the one installed by [basicConfig], or the
    handler of last resort, which only takes warnings and above. *)
Definition emitted (lv : Level) (w : World) : bool :=
  (levelno (effective_level w) <=? levelno lv)
  && match handler_format w with
     | Some _ => true
     | None => levelno WARNING <=? levelno lv
     end.

Definition basicConfig (format : string) : M unit :=
  modify (fun w =>
    mkWorld (rc_ready w) (logger_level w)
            (match handler_format w with
             | Some f => Some f
             | None => Some format
             end)
            (stderr w) (gca w) (files w)).

Definition setLevel (lv : Level) : M unit :=
  modify (fun w =>
    mkWorld (rc_ready w) lv (handler_format w) (stderr w) (gca w) (files w)).

Definition logger_debug (msg : string) : M unit :=
  modify (fun w =>
    if emitted DEBUG w
    then mkWorld (rc_ready w) (logger_level w) (handler_format w)
                 (stderr w ++ [mkLogRecord DEBUG msg])%list (gca w) (files w)
    else w).

(** ** kuibit.simdir *)

(** A [TimeSeries]: times [t] and values [y]. *)
Record TimeSeries : Type := mkTimeSeries {
  t : list time;
  y : list Z
}.

(** The variables of an apparent horizon file; the script reads
    [cctk_iteration] only. *)
Record AHVars : Type := mkAHVars {
  cctk_iteration : TimeSeries
}.

(** [OneHorizon]; [oh_ah] is its attribute [ah]. *)
Record OneHorizon : Type := mkOneHorizon {
  oh_ah : AHVars
}.

Record HorizonsDir : Type := mkHorizonsDir {
  available_apparent_horizons : list Z;
  get_apparent_horizon : Z -> exn + OneHorizon
}.

(** [SimDir]; [sim_horizons] is its attribute [horizons]. *)
Record SimDirT : Type := mkSimDir {
  sim_horizons : HorizonsDir
}.

(** What is on disk: the outcome of [SimDir(datadir, ignore_symlinks=..)]
    for every directory and flag. *)
Definition Disk : Type := string -> bool -> exn + SimDirT.

(** ** matplotlib.pyplot and kuibit.visualize_matplotlib *)

Definition setup_matplotlib : M unit :=
  modify (fun w =>
    mkWorld true (logger_level w) (handler_format w) (stderr w)
            (gca w) (files w)).

(** [plt.scatter(x, y, marker=.., s=..)] refuses arrays of different
    sizes and otherwise adds one collection to the axes. *)
Definition scatter (x : list time) (y : list Z) (mk : string) (sz : Q)
  : M unit :=
  if (List.length x =? List.length y)%nat
  then modify (with_gca (fun a =>
         mkAxes (collections a ++ [mkPathCollection x y mk sz])%list
                (ylabel a) (xlabel a) (minor_left a) (ylim a) (yticks a)))
  else raise (ValueError "x and y must be the same size").

Definition plt_ylabel (l : string) : M unit :=
  modify (with_gca (fun a =>
    mkAxes (collections a) l (xlabel a) (minor_left a) (ylim a) (yticks a))).

Definition plt_xlabel (l : string) : M unit :=
  modify (with_gca (fun a =>
    mkAxes (collections a) (ylabel a) l (minor_left a) (ylim a) (yticks a))).

(** [plt.gca().tick_params(axis="y", which="minor", left=..)]. *)
Definition tick_params_y_minor (left : bool) : M unit :=
  modify (with_gca (fun a =>
    mkAxes (collections a) (ylabel a) (xlabel a) left (ylim a) (yticks a))).

Definition plt_ylim (bottom top : Z) : M unit :=
  modify (with_gca (fun a =>
    mkAxes (collections a) (ylabel a) (xlabel a) (minor_left a)
           (Some (bottom, top)) (yticks a))).

Definition plt_yticks (ticks : list Z) : M unit :=
  modify (with_gca (fun a =>
    mkAxes (collections a) (ylabel a) (xlabel a) (minor_left a)
           (ylim a) (Some ticks))).

(** Modelled from the spec: [get_figname] of kuibit.visualize_matplotlib
    is not part of the sources at hand.  The figure name is the override
    given on the command line, and the default when there is none. *)
Definition get_figname (args : Args) (default : string) : string :=
  match figname args with
  | Some name => name
  | None => default
  end.

(** Modelled from the spec: [save_from_dir_filename_ext] of
    kuibit.visualize_matplotlib is not part of the sources at hand.  It
    saves the current figure as one image file at
    [<outdir>/<figname>.<extension>]. *)
Definition output_path (dir name ext : string) : string :=
  dir ++ "/" ++ name ++ "." ++ ext.

Definition save_from_dir_filename_ext (dir name ext : string) : M unit :=
  modify (fun w =>
    mkWorld (rc_ready w) (logger_level w) (handler_format w) (stderr w)
            (gca w) ((output_path dir name ext, gca w) :: files w)).

(** ** The script *)

(** The default figure name (lines 60-61). *)
Definition default_figname (args : Args) : string :=
  let horizons := join "_" (map str (horizons args)) in
  "ah_" ++ horizons ++ "_found".

(** The body of the loop over the requested horizons (lines 74-82). *)
Definition plot_horizon (sim_hor : HorizonsDir) (ah : Z) : M unit :=
  if py_in ah (available_apparent_horizons sim_hor) then
    logger_debug ("Reading horizon " ++ str ah) ;;
    current_horizon <- lift (get_apparent_horizon sim_hor ah) ;;
    let time_found := t (cctk_iteration (oh_ah current_horizon)) in
    let ah_num := list_mul [ah] (List.length time_found) in
    scatter time_found ah_num "o" 0.1%Q
  else
    ret tt.

(** The main block (lines 32-98), after argument parsing. *)
Definition main (SimDir : Disk) (args : Args) : M unit :=
  setup_matplotlib ;;
  (if verbose args then
     basicConfig "%(asctime)s - %(message)s" ;;
     setLevel DEBUG
   else ret tt) ;;
  let figname := get_figname args (default_figname args) in
  logger_debug ("Figname: " ++ figname) ;;
  sim <- lift (SimDir (datadir args) (ignore_symlinks args)) ;;
  logger_debug "Prepared SimDir" ;;
  let sim_hor := sim_horizons sim in
  logger_debug ("Apparent horizons available: "
                ++ repr_list (available_apparent_horizons sim_hor)) ;;
  for_each (horizons args) (plot_horizon sim_hor) ;;
  logger_debug "Plotting" ;;
  plt_ylabel "Apparent horizon" ;;
  plt_xlabel "Time" ;;
  tick_params_y_minor false ;;
  lo <- lift (py_min (horizons args)) ;;
  hi <- lift (py_max (horizons args)) ;;
  plt_ylim (lo - 1) (hi + 1) ;;
  plt_yticks (horizons args) ;;
  logger_debug "Plotted" ;;
  logger_debug "Saving" ;;
  save_from_dir_filename_ext (outdir args) figname (fig_extension args) ;;
  logger_debug "DONE".

(** ** What a run is expected to leave behind *)

(** The horizons of the request that the simulation has, in the order
    and with the multiplicity of the request. *)
Definition plotted (sim_hor : HorizonsDir) (R : list Z) : list Z :=
  filter (fun ah => py_in ah (available_apparent_horizons sim_hor)) R.

(** The detection times the reader gives for a horizon. *)
Definition times_of (sim_hor : HorizonsDir) (ah : Z) : list time :=
  match get_apparent_horizon sim_hor ah with
  | inr h => t (cctk_iteration (oh_ah h))
  | inl _ => []
  end.

(** The scatter series of a horizon: its detection times against the
    constant [ah]. *)
Definition series_of (sim_hor : HorizonsDir) (ah : Z) : PathCollection :=
  mkPathCollection (times_of sim_hor ah)
                   (repeat ah (List.length (times_of sim_hor ah)))
                   "o" 0.1%Q.

(** The reader opens the data directory of the command line. *)
Definition opens (SimDir : Disk) (args : Args) (sim : SimDirT) : Prop :=
  SimDir (datadir args) (ignore_symlinks args) = inr sim.

(** The reader returns a horizon for every requested identifier that it
    lists as available. *)
Definition readable (sim_hor : HorizonsDir) (R : list Z) : Prop :=
  forall ah, In ah R ->
    py_in ah (available_apparent_horizons sim_hor) = true ->
    exists h, get_apparent_horizon sim_hor ah = inr h.

Definition reading (ah : Z) : LogRecord :=
  mkLogRecord DEBUG ("Reading horizon " ++ str ah).

(** The records of a verbose run, in order. *)
Definition debug_records (args : Args) (sim_hor : HorizonsDir)
  : list LogRecord :=
  ([mkLogRecord DEBUG
      ("Figname: " ++ get_figname args (default_figname args));
    mkLogRecord DEBUG "Prepared SimDir";
    mkLogRecord DEBUG
      ("Apparent horizons available: "
         ++ repr_list (available_apparent_horizons sim_hor))]%string
   ++ map reading (plotted sim_hor (horizons args))
   ++ [mkLogRecord DEBUG "Plotting"; mkLogRecord DEBUG "Plotted";
       mkLogRecord DEBUG "Saving"; mkLogRecord DEBUG "DONE"])%list.

Definition final_axes (args : Args) (sim_hor : HorizonsDir) (lo hi : Z)
  : Axes :=
  mkAxes (map (series_of sim_hor) (plotted sim_hor (horizons args)))
         "Apparent horizon" "Time" false
         (Some (lo - 1, hi + 1)) (Some (horizons args)).

Definition final_world (args : Args) (sim_hor : HorizonsDir) (lo hi : Z)
           (fs : list (string * Axes)) : World :=
  mkWorld true
          (if verbose args then DEBUG else NOTSET)
          (if verbose args then Some "%(asctime)s - %(message)s" else None)
          (if verbose args then debug_records args sim_hor else [])
          (final_axes args sim_hor lo hi)
          ((output_path (outdir args)
                        (get_figname args (default_figname args))
                        (fig_extension args),
            final_axes args sim_hor lo hi) :: fs).

(** [extend rs cs w]: the world [w] after the debug records [rs] were
    logged and the collections [cs] were added to the axes. *)
Definition extend (rs : list LogRecord) (cs : list PathCollection)
           (w : World) : World :=
  mkWorld (rc_ready w) (logger_level w) (handler_format w)
          (stderr w ++ (if emitted DEBUG w then rs else []))%list
          (mkAxes (collections (gca w) ++ cs)%list
                  (ylabel (gca w)) (xlabel (gca w)) (minor_left (gca w))
                  (ylim (gca w)) (yticks (gca w)))
          (files w).

(** The log after a computation is the log before it, with records
    added at the end. *)
Definition log_grows {A : Type} (m : M A) : Prop :=
  forall w, exists rest, stderr (snd (m w)) = (stderr w ++ rest)%list.

(** What the script reads from a horizon, or the exception raised. *)
Definition found (r : exn + OneHorizon) : exn + list time :=
  match r with
  | inl e => inl e
  | inr h => inr (t (cctk_iteration (oh_ah h)))
  end.

(** Two readers give the same answers to the questions the script asks
    on the request [R]: the same list of available horizons, and the
    same detection times, or the same exception, for every requested
    horizon in that list. *)
Definition same_answers (R : list Z) (h1 h2 : HorizonsDir) : Prop :=
  available_apparent_horizons h1 = available_apparent_horizons h2 /\
  forall ah, In ah R ->
    py_in ah (available_apparent_horizons h1) = true ->
    found (get_apparent_horizon h1 ah) = found (get_apparent_horizon h2 ah).

Definition same_data (args : Args) (d1 d2 : Disk) : Prop :=
  match d1 (datadir args) (ignore_symlinks args),
        d2 (datadir args) (ignore_symlinks args) with
  | inl e1, inl e2 => e1 = e2
  | inr s1, inr s2 =>
      same_answers (horizons args) (sim_horizons s1) (sim_horizons s2)
  | _, _ => False
  end.

(** ** Every run, in closed form *)

(** The loop over the request [R]: the horizons it plots, and the
    horizon and the exception at which it stops when the reader raises.
    A horizon that the simulation does not list is passed over without
    asking the reader. *)
Fixpoint scan (sim_hor : HorizonsDir) (R : list Z)
  : list Z * option (Z * exn) :=
  match R with
  | [] => ([], None)
  | ah :: rest =>
      if py_in ah (available_apparent_horizons sim_hor) then
        match get_apparent_horizon sim_hor ah with
        | inl e => ([], Some (ah, e))
        | inr _ =>
            let (done, stop) := scan sim_hor rest in (ah :: done, stop)
        end
      else scan sim_hor rest
  end.

(** The records of the loop: one per horizon plotted, and one for the
    horizon at which it stops. *)
Definition loop_records (done : list Z) (stop : option (Z * exn))
  : list LogRecord :=
  (map reading done
   ++ match stop with
      | Some (ah, _) => [reading ah]
      | None => []
      end)%list.

(** The records logged until the loop starts. *)
Definition opening_records (args : Args) (sim_hor : HorizonsDir)
  : list LogRecord :=
  [mkLogRecord DEBUG
     ("Figname: " ++ get_figname args (default_figname args));
   mkLogRecord DEBUG "Prepared SimDir";
   mkLogRecord DEBUG
     ("Apparent horizons available: "
        ++ repr_list (available_apparent_horizons sim_hor))].

(** The state a run ends in, with the logger as [verbose] sets it. *)
Definition ended (args : Args) (records : list LogRecord) (fig : Axes)
           (fs : list (string * Axes)) : World :=
  mkWorld true
          (if verbose args then DEBUG else NOTSET)
          (if verbose args then Some "%(asctime)s - %(message)s" else None)
          (if verbose args then records else [])
          fig fs.

(** The outcome of a run from a fresh process: it stops where [SimDir]
    raises, where the reader raises inside the loop, where [min] or
    [max] raises, or it completes. *)
Definition outcome (SimDir : Disk) (args : Args)
           (fs : list (string * Axes)) : (exn + unit) * World :=
  match SimDir (datadir args) (ignore_symlinks args) with
  | inl e =>
      (inl e,
       ended args
             [mkLogRecord DEBUG
                ("Figname: " ++ get_figname args (default_figname args))]
             new_axes fs)
  | inr sim =>
      let sim_hor := sim_horizons sim in
      let (done, stop) := scan sim_hor (horizons args) in
      let series := map (series_of sim_hor) done in
      let records :=
        (opening_records args sim_hor ++ loop_records done stop)%list in
      match stop with
      | Some (_, e) =>
          (inl e, ended args records (mkAxes series "" "" true None None) fs)
      | None =>
          let labelled :=
            mkAxes series "Apparent horizon" "Time" false None None in
          let plotting :=
            (records ++ [mkLogRecord DEBUG "Plotting"])%list in
          match py_min (horizons args) with
          | inl e => (inl e, ended args plotting labelled fs)
          | inr lo =>
              match py_max (horizons args) with
              | inl e => (inl e, ended args plotting labelled fs)
              | inr hi =>
                  let fig :=
                    mkAxes series "Apparent horizon" "Time" false
                           (Some (lo - 1, hi + 1)) (Some (horizons args)) in
                  (inr tt,
                   ended args
                         (plotting
                          ++ [mkLogRecord DEBUG "Plotted";
                              mkLogRecord DEBUG "Saving";
                              mkLogRecord DEBUG "DONE"])%list
                         fig
                         ((output_path
                             (outdir args)
                             (get_figname args (default_figname args))
                             (fig_extension args), fig) :: fs))
              end
          end
      end
  end.

End Script.

Arguments PathCollection : clear implicits.
Arguments Axes : clear implicits.
Arguments World : clear implicits.
Arguments TimeSeries : clear implicits.
Arguments AHVars : clear implicits.
Arguments OneHorizon : clear implicits.
Arguments HorizonsDir : clear implicits.
Arguments SimDirT : clear implicits.
Arguments Disk : clear implicits.
Arguments M : clear implicits.

Notation "x <- m ;; k" := (bind m (fun x => k))
  (at level 61, m at next level, right associativity).
Notation "m ;; k" := (bind m (fun _ => k))
  (at level 61, right associativity).

(** ** Sample simulations and requests *)

(** A simulation with horizons 1, 2 and 3.  Horizons 1 and 2 were found
    at times 0.5 and 1.5, horizon 3 was never found; asking for any
    other horizon raises. *)
Definition sample_horizons : HorizonsDir Q :=
  mkHorizonsDir
    [1; 2; 3]
    (fun ah =>
       if py_in ah [1; 2]
       then inr (mkOneHorizon (mkAHVars
              (mkTimeSeries [0.5%Q; 1.5%Q] [8; 24])))
       else if ah =? 3
       then inr (mkOneHorizon (mkAHVars (mkTimeSeries [] [])))
       else inl (CollaboratorError "no such horizon")).

Definition sample_disk : Disk Q :=
  fun _ _ => inr (mkSimDir sample_horizons).

(** The same simulation behind a reader that answers an empty horizon
    where [sample_horizons] raises. *)
Definition lenient_horizons : HorizonsDir Q :=
  mkHorizonsDir
    [1; 2; 3]
    (fun ah =>
       if py_in ah [1; 2]
       then inr (mkOneHorizon (mkAHVars
              (mkTimeSeries [0.5%Q; 1.5%Q] [8; 24])))
       else inr (mkOneHorizon (mkAHVars (mkTimeSeries [] [])))).

Definition lenient_disk : Disk Q :=
  fun _ _ => inr (mkSimDir lenient_horizons).

(** Another simulation: horizons 2 and 7, found at other times. *)
Definition other_horizons : HorizonsDir Q :=
  mkHorizonsDir
    [2; 7]
    (fun ah =>
       if py_in ah [2; 7]
       then inr (mkOneHorizon (mkAHVars (mkTimeSeries [0.25%Q] [4])))
       else inl (CollaboratorError "no such horizon")).

Definition other_disk : Disk Q :=
  fun _ _ => inr (mkSimDir other_horizons).

(** No simulation at all. *)
Definition no_disk : Disk Q :=
  fun _ _ => inl (CollaboratorError "no such directory").

(** The sample simulation with an unreadable file for horizon 2. *)
Definition broken_horizons : HorizonsDir Q :=
  mkHorizonsDir
    [1; 2; 3]
    (fun ah =>
       if ah =? 2 then inl (CollaboratorError "unreadable file")
       else get_apparent_horizon sample_horizons ah).

Definition broken_disk : Disk Q :=
  fun _ _ => inr (mkSimDir broken_horizons).

(** [--horizons 1 5 2 3 -v]. *)
Definition broken_args : Args :=
  mkArgs "sim" false "." None "png" true [1; 5; 2; 3].

(** [--horizons 2 5 -v], [--horizons 2 2 5] and [--horizons 3 1]. *)
Definition sample_args : Args :=
  mkArgs "sim" false "." None "png" true [2; 5].

Definition repeat_args : Args :=
  mkArgs "sim" false "." None "png" false [2; 2; 5].

Definition undetected_args : Args :=
  mkArgs "sim" false "." None "png" false [3; 1].

(** * Properties *)

Section Properties.

Context {time : Type}.

(** ** Built-ins *)

Lemma int_of_string_of_int (d : Decimal.signed_int) :
  option_map Z.of_int (NilZero.int_of_string (NilZero.string_of_int d))
  = Some (Z.of_int d).
Proof.
  destruct d as [u | u]; destruct u;
    try (rewrite NilZero.isi by discriminate; reflexivity);
    reflexivity.
Qed.

(** [int(str(h)) == h]: [str] writes the decimal representation. *)
Lemma int_of_str_str (h : Z) : int_of_str (str h) = Some h.
Proof.
  unfold int_of_str, str. rewrite int_of_string_of_int.
  now rewrite DecimalZ.of_to.
Qed.

Lemma str_inj (a b : Z) : str a = str b -> a = b.
Proof.
  intros H. apply (f_equal int_of_str) in H.
  rewrite !int_of_str_str in H. congruence.
Qed.

Lemma count_occ_map_str (R : list Z) (h : Z) :
  count_occ string_dec (map str R) (str h) = count_occ Z.eq_dec R h.
Proof.
  induction R as [| a R IH]; simpl; [reflexivity |].
  destruct (string_dec (str a) (str h)) as [E | E];
    destruct (Z.eq_dec a h) as [E' | E']; try congruence.
  apply str_inj in E. contradiction.
Qed.

(** The decimal representation has digits and a sign, no underscore. *)
Lemma uint_no_underscore (u : Decimal.uint) :
  contains "_" (NilEmpty.string_of_uint u) = false.
Proof. induction u; simpl; auto. Qed.

Lemma str_no_underscore (h : Z) : contains "_" (str h) = false.
Proof.
  unfold str, NilZero.string_of_int, NilZero.string_of_uint.
  destruct (Z.to_int h) as [u | u]; destruct u;
    try reflexivity; simpl; apply uint_no_underscore.
Qed.

Lemma split_field (sep : ascii) (a : string) :
  contains sep a = false -> split sep a = [a].
Proof.
  induction a as [| c a IH]; simpl; [reflexivity |].
  destruct (Ascii.eqb c sep); simpl; [discriminate |].
  intros H. now rewrite IH.
Qed.

Lemma split_append (sep : ascii) (a b : string) :
  contains sep a = false ->
  split sep (a ++ String sep b) = a :: split sep b.
Proof.
  induction a as [| c a IH]; simpl.
  - intros _. now rewrite Ascii.eqb_refl.
  - destruct (Ascii.eqb c sep); simpl; [discriminate |].
    intros H. now rewrite IH.
Qed.

Lemma append_assoc (a b c : string) : (a ++ b) ++ c = a ++ (b ++ c).
Proof. induction a as [| x a IH]; simpl; [reflexivity | now rewrite IH]. Qed.

(** Splitting joined fields that hold no separator gives the fields
    back, whatever follows the last separator. *)
Lemma split_join (sep : ascii) (parts : list string) (last : string) :
  Forall (fun part => contains sep part = false) parts ->
  split sep (String.concat (String sep "") parts
             ++ String sep last)
  = match parts with
    | [] => "" :: split sep last
    | _ => (parts ++ split sep last)%list
    end.
Proof.
  induction parts as [| a parts IH]; intros Hall.
  - simpl. now rewrite Ascii.eqb_refl.
  - inversion Hall as [| ? ? Ha Hparts]; subst.
    destruct parts as [| b parts].
    + simpl. now rewrite split_append.
    + specialize (IH Hparts).
      change (String.concat (String sep "") (a :: b :: parts))
        with (a ++ String sep "" ++ String.concat (String sep "") (b :: parts)).
      set (rest := String.concat (String sep "") (b :: parts)) in *.
      rewrite append_assoc.
      change ((String sep "" ++ rest) ++ String sep last)
        with (String sep (rest ++ String sep last)).
      rewrite split_append by assumption. now rewrite IH.
Qed.

(** The fields of the default figure name. *)
Lemma split_default_figname (args : Args) :
  horizons args <> [] ->
  split "_" (default_figname args)
  = ("ah" :: map str (horizons args) ++ ["found"])%list.
Proof.
  intros Hne. unfold default_figname, join.
  change ("ah_" ++ String.concat "_" (map str (horizons args)) ++ "_found")
    with ("ah" ++ String "_"
            (String.concat "_" (map str (horizons args))
             ++ String "_" "found")).
  rewrite split_append by reflexivity. f_equal.
  rewrite split_join.
  - destruct (horizons args); [contradiction | reflexivity].
  - apply Forall_forall. intros part Hpart. apply in_map_iff in Hpart.
    destruct Hpart as [h [<- _]]. apply str_no_underscore.
Qed.

Lemma str_not_word (h : Z) (word : string) :
  int_of_str word = None -> str h <> word.
Proof.
  intros Hnone Heq. rewrite <- Heq, int_of_str_str in Hnone. discriminate.
Qed.

(** A horizon stands among the fields of the default figure name as
    often as in the request. *)
Lemma count_default_figname (args : Args) (h : Z) :
  horizons args <> [] ->
  count_occ string_dec (split "_" (default_figname args)) (str h)
  = count_occ Z.eq_dec (horizons args) h.
Proof.
  intros Hne. rewrite split_default_figname by assumption.
  rewrite count_occ_cons_neq
    by (apply not_eq_sym, str_not_word; reflexivity).
  rewrite count_occ_app, count_occ_map_str.
  rewrite count_occ_cons_neq
    by (apply not_eq_sym, str_not_word; reflexivity).
  simpl. lia.
Qed.

Lemma py_in_In (x : Z) (l : list Z) : py_in x l = true <-> In x l.
Proof.
  unfold py_in. rewrite existsb_exists. split.
  - intros [z [Hz Heq]]. apply Z.eqb_eq in Heq. now subst.
  - intros Hin. exists x. split; [assumption | apply Z.eqb_refl].
Qed.

Lemma py_in_not_In (x : Z) (l : list Z) : py_in x l = false <-> ~ In x l.
Proof.
  rewrite <- py_in_In. destruct (py_in x l); split; congruence.
Qed.

Lemma list_mul_singleton {A : Type} (a : A) (n : nat) :
  list_mul [a] n = repeat a n.
Proof.
  unfold list_mul. induction n as [| n IH]; simpl; [reflexivity |].
  now rewrite IH.
Qed.

Lemma fold_min_le (r : list Z) (x : Z) :
  fold_left Z.min r x <= x /\ forall z, In z r -> fold_left Z.min r x <= z.
Proof.
  revert x. induction r as [| a r IH]; intros x; simpl.
  - split; [lia | tauto].
  - destruct (IH (Z.min x a)) as [H1 H2]. split; [lia |].
    intros z [-> | Hz]; [lia | auto].
Qed.

Lemma fold_min_In (r : list Z) (x : Z) :
  fold_left Z.min r x = x \/ In (fold_left Z.min r x) r.
Proof.
  revert x. induction r as [| a r IH]; intros x; simpl; [now left |].
  destruct (IH (Z.min x a)) as [H | H]; [| now right; right].
  rewrite H. destruct (Z.min_spec x a) as [[_ ->] | [_ ->]]; auto.
Qed.

Lemma fold_max_ge (r : list Z) (x : Z) :
  x <= fold_left Z.max r x /\ forall z, In z r -> z <= fold_left Z.max r x.
Proof.
  revert x. induction r as [| a r IH]; intros x; simpl.
  - split; [lia | tauto].
  - destruct (IH (Z.max x a)) as [H1 H2]. split; [lia |].
    intros z [-> | Hz]; [lia | auto].
Qed.

Lemma fold_max_In (r : list Z) (x : Z) :
  fold_left Z.max r x = x \/ In (fold_left Z.max r x) r.
Proof.
  revert x. induction r as [| a r IH]; intros x; simpl; [now left |].
  destruct (IH (Z.max x a)) as [H | H]; [| now right; right].
  rewrite H. destruct (Z.max_spec x a) as [[_ ->] | [_ ->]]; auto.
Qed.

(** [min] returns the least element of a non-empty list. *)
Lemma py_min_least (R : list Z) (lo : Z) :
  py_min R = inr lo -> In lo R /\ forall z, In z R -> lo <= z.
Proof.
  destruct R as [| x r]; simpl; [discriminate |].
  intros [= <-]. split.
  - destruct (fold_min_In r x) as [-> | H]; auto.
  - destruct (fold_min_le r x) as [H1 H2].
    intros z [<- | Hz]; auto.
Qed.

(** [max] returns the greatest element of a non-empty list. *)
Lemma py_max_greatest (R : list Z) (hi : Z) :
  py_max R = inr hi -> In hi R /\ forall z, In z R -> z <= hi.
Proof.
  destruct R as [| x r]; simpl; [discriminate |].
  intros [= <-]. split.
  - destruct (fold_max_In r x) as [-> | H]; auto.
  - destruct (fold_max_ge r x) as [H1 H2].
    intros z [<- | Hz]; auto.
Qed.

Lemma py_min_nonempty (R : list Z) :
  R <> [] -> exists lo, py_min R = inr lo.
Proof. destruct R; [congruence | intros _; simpl; eauto]. Qed.

Lemma py_max_nonempty (R : list Z) :
  R <> [] -> exists hi, py_max R = inr hi.
Proof. destruct R; [congruence | intros _; simpl; eauto]. Qed.

(** ** Steps of the script on the state *)

Lemma emitted_extend (rs : list LogRecord)
      (cs : list (PathCollection time)) (w : World time) :
  emitted DEBUG (extend rs cs w) = emitted DEBUG w.
Proof. reflexivity. Qed.

Lemma extend_nil (w : World time) : extend [] [] w = w.
Proof.
  destruct w as [rc lv hf err [cols yl xl ml lim tk] fs].
  unfold extend; simpl.
  destruct (emitted DEBUG _); now rewrite !app_nil_r.
Qed.

Lemma extend_extend (r1 r2 : list LogRecord)
      (c1 c2 : list (PathCollection time)) (w : World time) :
  extend r2 c2 (extend r1 c1 w) = extend (r1 ++ r2)%list (c1 ++ c2)%list w.
Proof.
  unfold extend at 1. rewrite emitted_extend.
  unfold extend; simpl.
  destruct (emitted DEBUG w); now rewrite <- !app_assoc.
Qed.

Lemma logger_debug_run (msg : string) (w : World time) :
  logger_debug msg w = (inr tt, extend [mkLogRecord DEBUG msg] [] w).
Proof.
  destruct w as [rc lv hf err [cols yl xl ml lim tk] fs].
  unfold logger_debug, modify, extend; simpl.
  destruct (emitted DEBUG _); now rewrite ?app_nil_r.
Qed.

Lemma scatter_run (x : list time) (y : list Z) (mk : string) (sz : Q)
      (w : World time) :
  List.length x = List.length y ->
  scatter x y mk sz w = (inr tt, extend [] [mkPathCollection x y mk sz] w).
Proof.
  intros Hlen. unfold scatter. rewrite Hlen, Nat.eqb_refl.
  destruct w as [rc lv hf err [cols yl xl ml lim tk] fs].
  unfold modify, with_gca, extend; simpl.
  destruct (emitted DEBUG _); now rewrite app_nil_r.
Qed.

(** One iteration on a horizon the simulation has. *)
Lemma plot_horizon_available (sim_hor : HorizonsDir time) (ah : Z)
      (w : World time) :
  py_in ah (available_apparent_horizons sim_hor) = true ->
  (exists h, get_apparent_horizon sim_hor ah = inr h) ->
  plot_horizon sim_hor ah w
  = (inr tt, extend [reading ah] [series_of sim_hor ah] w).
Proof.
  intros Hin [h Hget]. unfold plot_horizon. rewrite Hin.
  unfold bind at 1. rewrite logger_debug_run.
  unfold bind, lift. rewrite Hget, list_mul_singleton.
  rewrite scatter_run by now rewrite repeat_length.
  rewrite extend_extend. unfold series_of, times_of. now rewrite Hget.
Qed.

(** One iteration on a horizon the simulation does not have. *)
Lemma plot_horizon_missing (sim_hor : HorizonsDir time) (ah : Z)
      (w : World time) :
  py_in ah (available_apparent_horizons sim_hor) = false ->
  plot_horizon sim_hor ah w = (inr tt, w).
Proof. intros Hin. unfold plot_horizon. now rewrite Hin. Qed.

(** The loop over the request. *)
Lemma loop_run (sim_hor : HorizonsDir time) (R : list Z) :
  readable sim_hor R ->
  forall w,
    for_each R (plot_horizon sim_hor) w
    = (inr tt, extend (map reading (plotted sim_hor R))
                      (map (series_of sim_hor) (plotted sim_hor R)) w).
Proof.
  induction R as [| ah R IH]; intros Hread w.
  - simpl. now rewrite extend_nil.
  - assert (Hrest : readable sim_hor R).
    { intros a Ha. apply Hread. now right. }
    cbn [for_each]. unfold bind at 1. unfold plotted. cbn [filter].
    fold (plotted sim_hor R).
    destruct (py_in ah (available_apparent_horizons sim_hor)) eqn:Hin.
    + rewrite plot_horizon_available; auto.
      * rewrite IH by assumption. now rewrite extend_extend.
      * apply Hread; [now left | assumption].
    + rewrite plot_horizon_missing by assumption. now apply IH.
Qed.

(** A run on a readable simulation, from a fresh process. *)
Lemma main_run (SimDir : Disk time) (args : Args) (sim : SimDirT time)
      (fs : list (string * Axes time)) :
  parsed args ->
  opens SimDir args sim ->
  readable (sim_horizons sim) (horizons args) ->
  exists lo hi,
    py_min (horizons args) = inr lo /\
    py_max (horizons args) = inr hi /\
    main SimDir args (start fs)
    = (inr tt, final_world args (sim_horizons sim) lo hi fs).
Proof.
  intros Hne Hopen Hread.
  destruct (py_min_nonempty _ Hne) as [lo Hlo].
  destruct (py_max_nonempty _ Hne) as [hi Hhi].
  exists lo, hi. split; [assumption | split; [assumption |]].
  unfold opens in Hopen.
  unfold main, final_world, final_axes, debug_records.
  destruct (verbose args);
    cbv [bind setup_matplotlib basicConfig setLevel modify ret lift
         logger_debug emitted effective_level levelno start
         logger_level handler_format rc_ready stderr gca files
         Z.leb Z.compare Pos.compare Pos.compare_cont andb];
    rewrite Hopen;
    cbv [bind setup_matplotlib basicConfig setLevel modify ret lift
         logger_debug emitted effective_level levelno start
         logger_level handler_format rc_ready stderr gca files
         Z.leb Z.compare Pos.compare Pos.compare_cont andb];
    rewrite (loop_run _ _ Hread), Hlo, Hhi;
    cbv [extend emitted effective_level levelno
         logger_level handler_format rc_ready stderr gca files
         Z.leb Z.compare Pos.compare Pos.compare_cont andb
         plt_ylabel plt_xlabel tick_params_y_minor plt_ylim plt_yticks
         save_from_dir_filename_ext modify with_gca new_axes
         collections ylabel xlabel minor_left ylim yticks].
  - rewrite <- !app_assoc. reflexivity.
  - reflexivity.
Qed.

Lemma plotted_In (sim_hor : HorizonsDir time) (R : list Z) (ah : Z) :
  In ah (plotted sim_hor R)
  <-> In ah R /\ In ah (available_apparent_horizons sim_hor).
Proof. unfold plotted. now rewrite filter_In, py_in_In. Qed.

Lemma plotted_count (sim_hor : HorizonsDir time) (R : list Z) (ah : Z) :
  count_occ Z.eq_dec (plotted sim_hor R) ah
  = if py_in ah (available_apparent_horizons sim_hor)
    then count_occ Z.eq_dec R ah
    else 0%nat.
Proof.
  induction R as [| a R IH]; simpl.
  - now destruct (py_in ah _).
  - destruct (py_in a _) eqn:Ha; simpl;
      destruct (Z.eq_dec a ah) as [-> | Hne]; rewrite IH; try reflexivity.
    + now rewrite Ha.
    + now rewrite Ha.
Qed.

(** Every series of the final plot belongs to a plotted horizon. *)
Lemma series_of_plotted (sim_hor : HorizonsDir time) (R : list Z)
      (c : PathCollection time) :
  In c (map (series_of sim_hor) (plotted sim_hor R)) ->
  exists a, In a R /\ In a (available_apparent_horizons sim_hor)
            /\ c = series_of sim_hor a.
Proof.
  rewrite in_map_iff. intros [a [<- Ha]].
  apply plotted_In in Ha. destruct Ha. eauto.
Qed.

(** ** The log only grows *)

Lemma grows_same {A : Type} (m : M time A) :
  (forall w, stderr (snd (m w)) = stderr w) -> log_grows m.
Proof. intros H w. exists []. now rewrite app_nil_r. Qed.

Lemma grows_bind {A B : Type} (m : M time A) (k : A -> M time B) :
  log_grows m -> (forall a, log_grows (k a)) -> log_grows (bind m k).
Proof.
  intros Hm Hk w. unfold bind. destruct (Hm w) as [r1 H1].
  destruct (m w) as [[e | a] w1]; simpl in *.
  - eauto.
  - destruct (Hk a w1) as [r2 H2]. exists (r1 ++ r2)%list.
    now rewrite H2, H1, app_assoc.
Qed.

Lemma grows_logger_debug (msg : string) :
  log_grows (time:=time) (logger_debug msg).
Proof.
  intros w. rewrite logger_debug_run. simpl. eauto.
Qed.

Lemma grows_for_each {A : Type} (l : list A) (body : A -> M time unit) :
  (forall x, log_grows (body x)) -> log_grows (for_each l body).
Proof.
  intros Hb. induction l as [| x l IH]; simpl.
  - now apply grows_same.
  - apply grows_bind; auto.
Qed.

Lemma grows_plot_horizon (sim_hor : HorizonsDir time) (ah : Z) :
  log_grows (plot_horizon sim_hor ah).
Proof.
  unfold plot_horizon. destruct (py_in ah _); [| now apply grows_same].
  apply grows_bind; [apply grows_logger_debug |]. intros _.
  apply grows_bind; [now apply grows_same |]. intros h.
  apply grows_same. intros w. unfold scatter.
  now destruct (_ =? _)%nat.
Qed.

(** The part of the script that runs once the simulation is open. *)
Lemma grows_after_open (args : Args) (name : string) (sim : SimDirT time) :
  log_grows
    (logger_debug "Prepared SimDir" ;;
     logger_debug ("Apparent horizons available: "
                   ++ repr_list
                        (available_apparent_horizons (sim_horizons sim))) ;;
     for_each (horizons args) (plot_horizon (sim_horizons sim)) ;;
     logger_debug "Plotting" ;;
     plt_ylabel "Apparent horizon" ;;
     plt_xlabel "Time" ;;
     tick_params_y_minor false ;;
     lo <- lift (py_min (horizons args)) ;;
     hi <- lift (py_max (horizons args)) ;;
     plt_ylim (lo - 1) (hi + 1) ;;
     plt_yticks (horizons args) ;;
     logger_debug "Plotted" ;;
     logger_debug "Saving" ;;
     save_from_dir_filename_ext (outdir args) name (fig_extension args) ;;
     logger_debug "DONE").
Proof.
  repeat first
    [ apply grows_logger_debug
    | apply grows_for_each; intros; apply grows_plot_horizon
    | apply grows_bind; [| intros ? ]
    | now apply grows_same ].
Qed.

(** ** Runs on simulations that answer alike *)

Lemma bind_ext {A B : Type} (m : M time A) (k1 k2 : A -> M time B)
      (w : World time) :
  (forall a w', k1 a w' = k2 a w') -> bind m k1 w = bind m k2 w.
Proof.
  intros H. unfold bind. destruct (m w) as [[e | a] w']; auto.
Qed.

Lemma bind_ext_l {A B : Type} (m1 m2 : M time A) (k : A -> M time B)
      (w : World time) :
  m1 w = m2 w -> bind m1 k w = bind m2 k w.
Proof. intros H. unfold bind. now rewrite H. Qed.

Lemma bind_lift_inr {A B : Type} (a : A) (k : A -> M time B)
      (w : World time) :
  bind (lift (inr a)) k w = k a w.
Proof. reflexivity. Qed.

Lemma for_each_ext {A : Type} (l : list A) (f g : A -> M time unit) :
  (forall x, In x l -> forall w, f x w = g x w) ->
  forall w, for_each l f w = for_each l g w.
Proof.
  induction l as [| x l IH]; intros H w; simpl; [reflexivity |].
  unfold bind. rewrite (H x) by now left.
  destruct (g x w) as [[e | []] w']; [reflexivity |].
  apply IH. intros z Hz. apply H. now right.
Qed.

Lemma plot_horizon_same (R : list Z) (h1 h2 : HorizonsDir time) (ah : Z)
      (w : World time) :
  same_answers R h1 h2 -> In ah R ->
  plot_horizon h1 ah w = plot_horizon h2 ah w.
Proof.
  intros [Hav Hget] Hin. unfold plot_horizon. rewrite <- Hav.
  destruct (py_in ah _) eqn:Hah; [| reflexivity].
  apply bind_ext. intros _ w'. specialize (Hget ah Hin Hah).
  unfold bind, lift.
  destruct (get_apparent_horizon h1 ah) as [e1 | o1];
    destruct (get_apparent_horizon h2 ah) as [e2 | o2];
    simpl in Hget; try discriminate.
  - now injection Hget as ->.
  - now injection Hget as ->.
Qed.

(** ** The series of a horizon *)

Lemma combine_repeat {A : Type} (l : list A) (ah : Z) :
  combine l (repeat ah (List.length l)) = map (fun tm => (tm, ah)) l.
Proof.
  induction l as [| a l IH]; simpl; [reflexivity | now rewrite IH].
Qed.

Lemma points_series_of (sim_hor : HorizonsDir time) (ah : Z) :
  points (series_of sim_hor ah)
  = map (fun tm => (tm, ah)) (times_of sim_hor ah).
Proof. unfold points, series_of; simpl. apply combine_repeat. Qed.

Lemma times_of_found (sim_hor : HorizonsDir time) (ah : Z)
      (h : OneHorizon time) :
  get_apparent_horizon sim_hor ah = inr h ->
  times_of sim_hor ah = t (cctk_iteration (oh_ah h)).
Proof. intros H. unfold times_of. now rewrite H. Qed.

(** A plotted horizon has its series at the same position in the plot. *)
Lemma series_at (sim_hor : HorizonsDir time) (R : list Z) (ah : Z) :
  In ah R -> In ah (available_apparent_horizons sim_hor) ->
  exists i,
    nth_error (plotted sim_hor R) i = Some ah /\
    nth_error (map (series_of sim_hor) (plotted sim_hor R)) i
    = Some (series_of sim_hor ah).
Proof.
  intros HR HH.
  assert (Hp : In ah (plotted sim_hor R)) by now apply plotted_In.
  apply In_nth_error in Hp. destruct Hp as [i Hi].
  exists i. split; [assumption |]. now apply map_nth_error.
Qed.

Lemma In_parsed (args : Args) (ah : Z) :
  In ah (horizons args) -> parsed args.
Proof.
  unfold parsed. destruct (horizons args); [contradiction | discriminate].
Qed.

(** ** The plot of a run *)

(** C1.  Whatever horizons the simulation has and whatever horizons are
    requested, the run plots one scatter series per requested horizon
    that the simulation has, in the order of the request, and none for a
    requested horizon that it does not have: the series are those of the
    request filtered by availability, a horizon that is available is
    plotted as often as it is requested, one that is not is plotted zero
    times, and no series holds a point at its height. *)
Theorem one_series_per_available_request
        (SimDir : Disk time) (args : Args) (sim : SimDirT time)
        (fs : list (string * Axes time)) :
  parsed args ->
  opens SimDir args sim ->
  readable (sim_horizons sim) (horizons args) ->
  exists w',
    main SimDir args (start fs) = (inr tt, w') /\
    collections (gca w')
    = map (series_of (sim_horizons sim))
          (filter (fun ah =>
                     py_in ah (available_apparent_horizons (sim_horizons sim)))
                  (horizons args)) /\
    (forall ah,
        In ah (available_apparent_horizons (sim_horizons sim)) ->
        count_occ Z.eq_dec (plotted (sim_horizons sim) (horizons args)) ah
        = count_occ Z.eq_dec (horizons args) ah) /\
    (forall ah,
        ~ In ah (available_apparent_horizons (sim_horizons sim)) ->
        count_occ Z.eq_dec (plotted (sim_horizons sim) (horizons args)) ah
        = 0%nat /\
        forall c, In c (collections (gca w')) -> ~ In ah (offsets_y c)).
Proof.
  intros Hne Hopen Hread.
  destruct (main_run SimDir args sim fs Hne Hopen Hread)
    as (lo & hi & _ & _ & Hrun).
  eexists. split; [exact Hrun |]. simpl. split; [reflexivity |]. split.
  - intros ah Hin. rewrite plotted_count.
    apply py_in_In in Hin. now rewrite Hin.
  - intros ah Hout. split.
    + rewrite plotted_count. apply py_in_not_In in Hout. now rewrite Hout.
    + intros c Hc Hy. apply series_of_plotted in Hc.
      destruct Hc as (a & _ & Ha & ->). simpl in Hy.
      apply repeat_spec in Hy. now subst.
Qed.

(** C2.  The y ticks of the finished plot, and of the figure that is
    saved, are the requested horizons as they were given, whichever of
    them the simulation has. *)
Theorem yticks_are_the_request
        (SimDir : Disk time) (args : Args) (sim : SimDirT time)
        (fs : list (string * Axes time)) :
  parsed args ->
  opens SimDir args sim ->
  readable (sim_horizons sim) (horizons args) ->
  exists w' path,
    main SimDir args (start fs) = (inr tt, w') /\
    yticks (gca w') = Some (horizons args) /\
    files w' = (path, gca w') :: fs.
Proof.
  intros Hne Hopen Hread.
  destruct (main_run SimDir args sim fs Hne Hopen Hread)
    as (lo & hi & _ & _ & Hrun).
  do 2 eexists. split; [exact Hrun |]. simpl. split; reflexivity.
Qed.

(** C3.  For a non-empty request the y limits of the finished plot, and
    of the figure that is saved, are the least requested horizon minus
    one and the greatest requested horizon plus one. *)
Theorem ylim_brackets_the_request
        (SimDir : Disk time) (args : Args) (sim : SimDirT time)
        (fs : list (string * Axes time)) :
  horizons args <> [] ->
  opens SimDir args sim ->
  readable (sim_horizons sim) (horizons args) ->
  exists w' path lo hi,
    main SimDir args (start fs) = (inr tt, w') /\
    ylim (gca w') = Some (lo - 1, hi + 1) /\
    files w' = (path, gca w') :: fs /\
    In lo (horizons args) /\ (forall h, In h (horizons args) -> lo <= h) /\
    In hi (horizons args) /\ (forall h, In h (horizons args) -> h <= hi).
Proof.
  intros Hne Hopen Hread.
  destruct (main_run SimDir args sim fs Hne Hopen Hread)
    as (lo & hi & Hlo & Hhi & Hrun).
  apply py_min_least in Hlo. apply py_max_greatest in Hhi.
  exists (final_world args (sim_horizons sim) lo hi fs).
  eexists. exists lo, hi.
  split; [exact Hrun |]. simpl. repeat split; tauto.
Qed.

(** C4.  The default figure name is ["ah_"], then the requested horizons
    in decimal, in the order of the request and joined by underscores,
    then ["_found"]; without a figure name on the command line it is the
    figure name of the run. *)
Theorem default_figure_name (args : Args) :
  figname args = None ->
  default_figname args
  = "ah_" ++ String.concat "_" (map str (horizons args)) ++ "_found"
  /\ map int_of_str (map str (horizons args)) = map Some (horizons args)
  /\ get_figname args (default_figname args)
     = "ah_" ++ String.concat "_" (map str (horizons args)) ++ "_found".
Proof.
  intros Hnone. split; [reflexivity |]. split.
  - rewrite map_map. apply map_ext. apply int_of_str_str.
  - unfold get_figname. now rewrite Hnone.
Qed.

(** C5.  The series of a requested horizon that the simulation has holds
    one point per detection time: the time as abscissa, the horizon
    identifier as ordinate, drawn with marker size 0.1. *)
Theorem series_of_an_available_horizon
        (SimDir : Disk time) (args : Args) (sim : SimDirT time)
        (fs : list (string * Axes time)) (ah : Z) (h : OneHorizon time) :
  opens SimDir args sim ->
  readable (sim_horizons sim) (horizons args) ->
  In ah (horizons args) ->
  In ah (available_apparent_horizons (sim_horizons sim)) ->
  get_apparent_horizon (sim_horizons sim) ah = inr h ->
  exists w' i c,
    main SimDir args (start fs) = (inr tt, w') /\
    nth_error (plotted (sim_horizons sim) (horizons args)) i = Some ah /\
    nth_error (collections (gca w')) i = Some c /\
    points c = map (fun tm => (tm, ah)) (t (cctk_iteration (oh_ah h))) /\
    List.length (points c) = List.length (t (cctk_iteration (oh_ah h))) /\
    offsets_x c = t (cctk_iteration (oh_ah h)) /\
    Forall (fun v => v = ah) (offsets_y c) /\
    s c = 0.1%Q.
Proof.
  intros Hopen Hread HR HH Hget.
  destruct (main_run SimDir args sim fs (In_parsed _ _ HR) Hopen Hread)
    as (lo & hi & _ & _ & Hrun).
  destruct (series_at (sim_horizons sim) _ _ HR HH) as (i & Hi & Hc).
  exists (final_world args (sim_horizons sim) lo hi fs), i,
         (series_of (sim_horizons sim) ah).
  split; [exact Hrun |]. split; [exact Hi |]. split; [exact Hc |].
  rewrite points_series_of, (times_of_found _ _ _ Hget).
  split; [reflexivity |]. split; [now rewrite length_map |].
  unfold series_of; simpl. rewrite (times_of_found _ _ _ Hget).
  repeat split. apply Forall_forall. intros v Hv.
  now apply repeat_spec in Hv.
Qed.

(** ** The log of a run *)

Lemma debug_records_level (args : Args) (sim_hor : HorizonsDir time) :
  Forall (fun r => levelname r = DEBUG) (debug_records args sim_hor).
Proof.
  unfold debug_records. repeat (apply Forall_cons; [reflexivity |]).
  apply Forall_app. split.
  - apply Forall_forall. intros r Hr. apply in_map_iff in Hr.
    now destruct Hr as [a [<- _]].
  - repeat (apply Forall_cons; [reflexivity |]). apply Forall_nil.
Qed.

(** A verbose run reports the reading of a horizon only if it plots it. *)
Lemma reading_logged (args : Args) (sim_hor : HorizonsDir time) (ah : Z) :
  In (reading ah) (debug_records args sim_hor) ->
  In ah (plotted sim_hor (horizons args)).
Proof.
  unfold debug_records, reading. simpl.
  intros [H | [H | [H | H]]]; try discriminate.
  apply in_app_or in H. destruct H as [H | H].
  - apply in_map_iff in H. destruct H as [a [Ha Hin]].
    injection Ha as Ha. apply str_inj in Ha. now subst.
  - simpl in H. destruct H as [H | [H | [H | [H | []]]]]; discriminate.
Qed.

Lemma plotted_remove (sim_hor : HorizonsDir time) (R : list Z) (ah : Z) :
  ~ In ah (available_apparent_horizons sim_hor) ->
  plotted sim_hor (remove Z.eq_dec ah R) = plotted sim_hor R.
Proof.
  intros Hout. apply py_in_not_In in Hout. unfold plotted.
  induction R as [| a R IH]; simpl; [reflexivity |].
  destruct (Z.eq_dec ah a) as [<- | Hne].
  - now rewrite Hout.
  - simpl. now rewrite IH.
Qed.

(** C6.  A requested horizon that the simulation does not have is
    skipped.  The run completes and writes its output file; the plot is
    the one of the request without that horizon; nothing is logged
    above debug level, and nothing at all unless the run is verbose; a
    verbose run lists the available horizons and does not report the
    reading of the missing one. *)
Theorem missing_horizon_is_skipped_silently
        (SimDir : Disk time) (args : Args) (sim : SimDirT time)
        (fs : list (string * Axes time)) (ah : Z) :
  opens SimDir args sim ->
  readable (sim_horizons sim) (horizons args) ->
  In ah (horizons args) ->
  ~ In ah (available_apparent_horizons (sim_horizons sim)) ->
  exists w',
    main SimDir args (start fs) = (inr tt, w') /\
    files w'
    = (output_path (outdir args) (get_figname args (default_figname args))
                   (fig_extension args), gca w') :: fs /\
    collections (gca w')
    = map (series_of (sim_horizons sim))
          (plotted (sim_horizons sim)
                   (remove Z.eq_dec ah (horizons args))) /\
    (forall c, In c (collections (gca w')) -> ~ In ah (offsets_y c)) /\
    Forall (fun r => levelname r = DEBUG) (stderr w') /\
    (verbose args = false -> stderr w' = []) /\
    (verbose args = true ->
     In (mkLogRecord DEBUG
           ("Apparent horizons available: "
              ++ repr_list (available_apparent_horizons (sim_horizons sim))))
        (stderr w') /\
     ~ In (mkLogRecord DEBUG ("Reading horizon " ++ str ah)) (stderr w')).
Proof.
  intros Hopen Hread HR Hout.
  destruct (main_run SimDir args sim fs (In_parsed _ _ HR) Hopen Hread)
    as (lo & hi & _ & _ & Hrun).
  eexists. split; [exact Hrun |]. simpl.
  split; [reflexivity |].
  split; [now rewrite plotted_remove |].
  split.
  { intros c Hc Hy. apply series_of_plotted in Hc.
    destruct Hc as (a & _ & Ha & ->). simpl in Hy.
    apply repeat_spec in Hy. now subst. }
  split.
  { destruct (verbose args); [apply debug_records_level | apply Forall_nil]. }
  split.
  { now intros ->. }
  intros ->. split.
  - unfold debug_records. simpl. auto.
  - intros Hin. apply reading_logged in Hin. apply plotted_In in Hin. tauto.
Qed.

(** C7.  A requested horizon that the simulation has, but that was never
    detected, gets a series without points; the run completes. *)
Theorem empty_detection_series_is_plotted
        (SimDir : Disk time) (args : Args) (sim : SimDirT time)
        (fs : list (string * Axes time)) (ah : Z) (h : OneHorizon time) :
  opens SimDir args sim ->
  readable (sim_horizons sim) (horizons args) ->
  In ah (horizons args) ->
  In ah (available_apparent_horizons (sim_horizons sim)) ->
  get_apparent_horizon (sim_horizons sim) ah = inr h ->
  t (cctk_iteration (oh_ah h)) = [] ->
  exists w' i c,
    main SimDir args (start fs) = (inr tt, w') /\
    nth_error (plotted (sim_horizons sim) (horizons args)) i = Some ah /\
    nth_error (collections (gca w')) i = Some c /\
    points c = [] /\ offsets_x c = [] /\ offsets_y c = [].
Proof.
  intros Hopen Hread HR HH Hget Hempty.
  destruct (main_run SimDir args sim fs (In_parsed _ _ HR) Hopen Hread)
    as (lo & hi & _ & _ & Hrun).
  destruct (series_at (sim_horizons sim) _ _ HR HH) as (i & Hi & Hc).
  exists (final_world args (sim_horizons sim) lo hi fs), i,
         (series_of (sim_horizons sim) ah).
  split; [exact Hrun |]. split; [exact Hi |]. split; [exact Hc |].
  rewrite points_series_of. unfold series_of; simpl.
  rewrite (times_of_found _ _ _ Hget), Hempty. repeat split.
Qed.

(** ** Two runs *)

Lemma same_data_sym_readable (R : list Z) (h1 h2 : HorizonsDir time) :
  same_answers R h1 h2 -> readable h1 R -> readable h2 R.
Proof.
  intros [Hav Hget] Hread ah Hin Hah. rewrite <- Hav in Hah.
  destruct (Hread ah Hin Hah) as [o Ho].
  specialize (Hget ah Hin Hah). rewrite Ho in Hget.
  destruct (get_apparent_horizon h2 ah) as [e | o2]; [discriminate | eauto].
Qed.

(** The script asks the reader nothing but what [same_data] compares. *)
Lemma main_same (d1 d2 : Disk time) (args : Args) :
  same_data args d1 d2 ->
  forall w, main d1 args w = main d2 args w.
Proof.
  unfold same_data. intros Hsame w. unfold main.
  apply bind_ext; intros _ w1.
  apply bind_ext; intros _ w2.
  apply bind_ext; intros _ w3.
  destruct (d1 (datadir args) (ignore_symlinks args)) as [e1 | s1];
    destruct (d2 (datadir args) (ignore_symlinks args)) as [e2 | s2];
    try contradiction.
  - now subst.
  - destruct Hsame as [Hav Hget]. rewrite !bind_lift_inr.
    apply bind_ext; intros _ w4. rewrite <- Hav.
    apply bind_ext; intros _ w5.
    apply bind_ext_l. apply for_each_ext.
    intros ah Hin w'. now apply plot_horizon_same with (R := horizons args).
Qed.

(** C8.  Two runs with the same arguments, on readers that give the
    same answers, end alike from the same state: same outcome, same
    plot, same log, same files.  When the first run completes, a second
    run started afterwards completes as well and writes the same figure
    to the same path. *)
Theorem same_inputs_same_output
        (d1 d2 : Disk time) (args : Args) :
  same_data args d1 d2 ->
  (forall w, main d1 args w = main d2 args w) /\
  (forall sim fs,
      parsed args ->
      opens d1 args sim ->
      readable (sim_horizons sim) (horizons args) ->
      exists w1 w2 path fig,
        main d1 args (start fs) = (inr tt, w1) /\
        main d2 args (start (files w1)) = (inr tt, w2) /\
        files w1 = (path, fig) :: fs /\
        files w2 = (path, fig) :: (path, fig) :: fs /\
        gca w2 = gca w1 /\ stderr w2 = stderr w1).
Proof.
  intros Hsame. split; [now apply main_same |].
  intros sim fs Hne Hopen Hread.
  destruct (main_run d1 args sim fs Hne Hopen Hread)
    as (lo & hi & Hlo & Hhi & Hrun).
  destruct (main_run d1 args sim
                     (files (final_world args (sim_horizons sim) lo hi fs))
                     Hne Hopen Hread)
    as (lo' & hi' & Hlo' & Hhi' & Hrun').
  assert (lo' = lo) by congruence. assert (hi' = hi) by congruence. subst.
  do 4 eexists. split; [exact Hrun |].
  rewrite <- (main_same d1 d2 args Hsame).
  split; [exact Hrun' |]. simpl. repeat split.
Qed.

(** C9.  The request is a list.  A horizon that the simulation has and
    that is requested [k] times is plotted [k] times, each time with the
    same series, stands [k] times among the y ticks, and [k] times among
    the fields of the default figure name. *)
Theorem repeated_request_is_repeated
        (SimDir : Disk time) (args : Args) (sim : SimDirT time)
        (fs : list (string * Axes time)) (ah : Z) (k : nat) :
  parsed args ->
  opens SimDir args sim ->
  readable (sim_horizons sim) (horizons args) ->
  In ah (available_apparent_horizons (sim_horizons sim)) ->
  count_occ Z.eq_dec (horizons args) ah = k ->
  exists w' ticks,
    main SimDir args (start fs) = (inr tt, w') /\
    collections (gca w')
    = map (series_of (sim_horizons sim))
          (plotted (sim_horizons sim) (horizons args)) /\
    count_occ Z.eq_dec (plotted (sim_horizons sim) (horizons args)) ah = k /\
    yticks (gca w') = Some ticks /\
    count_occ Z.eq_dec ticks ah = k /\
    split "_" (default_figname args)
    = ("ah" :: map str (horizons args) ++ ["found"])%list /\
    count_occ string_dec (split "_" (default_figname args)) (str ah) = k.
Proof.
  intros Hne Hopen Hread HH Hk.
  destruct (main_run SimDir args sim fs Hne Hopen Hread)
    as (lo & hi & _ & _ & Hrun).
  do 2 eexists. split; [exact Hrun |].
  cbn [final_world final_axes gca collections yticks].
  split; [reflexivity |]. split.
  { rewrite plotted_count. apply py_in_In in HH. now rewrite HH. }
  split; [reflexivity |]. split; [assumption |].
  split; [now apply split_default_figname |].
  now rewrite count_default_figname.
Qed.

Lemma bind_modify {B : Type} (f : World time -> World time)
      (k : unit -> M time B) (w : World time) :
  bind (modify f) k w = k tt (f w).
Proof. reflexivity. Qed.

Lemma bind_bind {A B C : Type} (m : M time A) (k1 : A -> M time B)
      (k2 : B -> M time C) (w : World time) :
  bind (bind m k1) k2 w = bind m (fun a => bind (k1 a) k2) w.
Proof. unfold bind. now destruct (m w) as [[e | a] w']. Qed.

(** The first record of a verbose run carries the figure name, whether
    or not the simulation opens. *)
Lemma figname_logged_first (d : Disk time) (args : Args)
      (fs : list (string * Axes time)) :
  verbose args = true ->
  exists rest,
    stderr (snd (main d args (start fs)))
    = mkLogRecord DEBUG
        ("Figname: " ++ get_figname args (default_figname args))
      :: rest.
Proof.
  intros Hv. unfold main. rewrite Hv.
  unfold setup_matplotlib, basicConfig, setLevel.
  rewrite bind_modify, bind_bind, !bind_modify.
  unfold bind at 1. rewrite logger_debug_run.
  destruct (d (datadir args) (ignore_symlinks args)) as [e | sim].
  - exists []. reflexivity.
  - rewrite bind_lift_inr.
    match goal with
    | |- context [snd (bind ?a ?b ?w)] =>
        destruct (grows_after_open args
                    (get_figname args (default_figname args)) sim w)
          as [rest Hrest]
    end.
    exists rest. etransitivity; [exact Hrest | reflexivity].
Qed.

(** C10.  The figure name is settled by the arguments before the
    simulation is opened.  Two runs with the same arguments write to the
    same path whatever horizons and detection times their simulations
    hold, and a verbose run logs the figure name first, even when the
    simulation cannot be opened. *)
Theorem figure_name_ignores_the_simulation
        (d1 d2 : Disk time) (args : Args) (sim1 sim2 : SimDirT time)
        (fs1 fs2 : list (string * Axes time)) :
  parsed args ->
  opens d1 args sim1 ->
  readable (sim_horizons sim1) (horizons args) ->
  opens d2 args sim2 ->
  readable (sim_horizons sim2) (horizons args) ->
  exists w1 w2 fig1 fig2,
    main d1 args (start fs1) = (inr tt, w1) /\
    main d2 args (start fs2) = (inr tt, w2) /\
    files w1
    = (output_path (outdir args) (get_figname args (default_figname args))
                   (fig_extension args), fig1) :: fs1 /\
    files w2
    = (output_path (outdir args) (get_figname args (default_figname args))
                   (fig_extension args), fig2) :: fs2 /\
    (verbose args = true ->
     forall (d : Disk time) (fs : list (string * Axes time)),
     exists rest,
       stderr (snd (main d args (start fs)))
       = mkLogRecord DEBUG
           ("Figname: " ++ get_figname args (default_figname args))
         :: rest).
Proof.
  intros Hne Ho1 Hr1 Ho2 Hr2.
  destruct (main_run d1 args sim1 fs1 Hne Ho1 Hr1)
    as (lo & hi & Hlo & Hhi & Hrun1).
  destruct (main_run d2 args sim2 fs2 Hne Ho2 Hr2)
    as (lo' & hi' & _ & _ & Hrun2).
  do 4 eexists. split; [exact Hrun1 |]. split; [exact Hrun2 |].
  simpl. split; [reflexivity |]. split; [reflexivity |].
  intros Hv d fs. now apply figname_logged_first.
Qed.

End Properties.

(** * The sample runs *)

(** Horizons 1, 2, 3 on disk and horizons 2 and 5 requested: one series,
    for horizon 2; ticks at 2 and 5; limits 1 and 6; the figure saved as
    [./ah_2_5_found.png]. *)
Example sample_run :
  main sample_disk sample_args (start [])
  = (inr tt,
     let fig :=
       mkAxes [mkPathCollection [0.5%Q; 1.5%Q] [2; 2] "o" 0.1%Q]
              "Apparent horizon" "Time" false
              (Some (1, 6)) (Some [2; 5]) in
     mkWorld true DEBUG (Some "%(asctime)s - %(message)s")
       [mkLogRecord DEBUG "Figname: ah_2_5_found";
        mkLogRecord DEBUG "Prepared SimDir";
        mkLogRecord DEBUG "Apparent horizons available: [1, 2, 3]";
        mkLogRecord DEBUG "Reading horizon 2";
        mkLogRecord DEBUG "Plotting";
        mkLogRecord DEBUG "Plotted";
        mkLogRecord DEBUG "Saving";
        mkLogRecord DEBUG "DONE"]
       fig
       [("./ah_2_5_found.png", fig)]).
Proof. reflexivity. Qed.

(** Without a simulation the run stops at [SimDir]; the figure name is
    already logged and nothing is written. *)
Example no_disk_run :
  main no_disk sample_args (start [])
  = (inl (CollaboratorError "no such directory"),
     mkWorld true DEBUG (Some "%(asctime)s - %(message)s")
       [mkLogRecord DEBUG "Figname: ah_2_5_found"]
       new_axes []).
Proof. reflexivity. Qed.

(** Negative identifiers keep their sign in the figure name. *)
Example negative_figname :
  default_figname (mkArgs "sim" false "." None "png" false [-1; 0; 12])
  = "ah_-1_0_12_found".
Proof. reflexivity. Qed.

Lemma sample_parsed : parsed sample_args.
Proof. unfold parsed; simpl; discriminate. Qed.

Lemma sample_opens : opens sample_disk sample_args (mkSimDir sample_horizons).
Proof. reflexivity. Qed.

Lemma sample_readable (R : list Z) : readable sample_horizons R.
Proof.
  intros ah _ Hin. simpl in *.
  destruct (ah =? 1) eqn:E1; [simpl; eauto |].
  destruct (ah =? 2) eqn:E2; [simpl; eauto |].
  destruct (ah =? 3) eqn:E3; [simpl; eauto | discriminate].
Qed.

Lemma other_readable (R : list Z) : readable other_horizons R.
Proof.
  intros ah _ Hin. simpl in *. rewrite Hin. eauto.
Qed.

(** * The theorems at the sample runs *)

Lemma one_series_per_available_request_witness :
  parsed sample_args /\
  opens sample_disk sample_args (mkSimDir sample_horizons) /\
  readable sample_horizons (horizons sample_args) /\
  exists w',
    main sample_disk sample_args (start []) = (inr tt, w') /\
    collections (gca w') = [mkPathCollection [0.5%Q; 1.5%Q] [2; 2] "o" 0.1%Q].
Proof.
  split; [exact sample_parsed |]. split; [exact sample_opens |].
  split; [exact (sample_readable _) |].
  destruct (one_series_per_available_request
              sample_disk sample_args (mkSimDir sample_horizons) []
              sample_parsed sample_opens (sample_readable _))
    as (w' & Hrun & Hcol & _).
  exists w'. split; [exact Hrun | exact Hcol].
Defined.

Lemma yticks_are_the_request_witness :
  parsed sample_args /\
  opens sample_disk sample_args (mkSimDir sample_horizons) /\
  readable sample_horizons (horizons sample_args) /\
  exists w',
    main sample_disk sample_args (start []) = (inr tt, w') /\
    yticks (gca w') = Some [2; 5].
Proof.
  split; [exact sample_parsed |]. split; [exact sample_opens |].
  split; [exact (sample_readable _) |].
  destruct (yticks_are_the_request
              sample_disk sample_args (mkSimDir sample_horizons) []
              sample_parsed sample_opens (sample_readable _))
    as (w' & path & Hrun & Hticks & _).
  exists w'. split; [exact Hrun | exact Hticks].
Defined.

Lemma ylim_brackets_the_request_witness :
  horizons sample_args <> [] /\
  opens sample_disk sample_args (mkSimDir sample_horizons) /\
  readable sample_horizons (horizons sample_args) /\
  exists w' lo hi,
    main sample_disk sample_args (start []) = (inr tt, w') /\
    ylim (gca w') = Some (lo - 1, hi + 1) /\
    In lo [2; 5] /\ In hi [2; 5].
Proof.
  split; [exact sample_parsed |]. split; [exact sample_opens |].
  split; [exact (sample_readable _) |].
  destruct (ylim_brackets_the_request
              sample_disk sample_args (mkSimDir sample_horizons) []
              sample_parsed sample_opens (sample_readable _))
    as (w' & path & lo & hi & Hrun & Hlim & _ & Hlo & _ & Hhi & _).
  exists w', lo, hi. repeat split; assumption.
Defined.

Lemma default_figure_name_witness :
  figname sample_args = None /\
  get_figname sample_args (default_figname sample_args) = "ah_2_5_found".
Proof.
  split; [reflexivity |].
  exact (proj2 (proj2 (default_figure_name sample_args eq_refl))).
Defined.

Lemma series_of_an_available_horizon_witness :
  exists w' i c,
    main sample_disk sample_args (start []) = (inr tt, w') /\
    nth_error (collections (gca w')) i = Some c /\
    points c = [(0.5%Q, 2); (1.5%Q, 2)] /\
    s c = 0.1%Q.
Proof.
  destruct (series_of_an_available_horizon
              sample_disk sample_args (mkSimDir sample_horizons) [] 2
              (mkOneHorizon (mkAHVars (mkTimeSeries [0.5%Q; 1.5%Q] [8; 24])))
              sample_opens (sample_readable _)
              (or_introl eq_refl) (or_intror (or_introl eq_refl)) eq_refl)
    as (w' & i & c & Hrun & _ & Hc & Hpts & _ & _ & _ & Hs).
  exists w', i, c. repeat split; assumption.
Defined.

Lemma missing_horizon_is_skipped_silently_witness :
  In 5 (horizons sample_args) /\
  ~ In 5 (available_apparent_horizons sample_horizons) /\
  exists w',
    main sample_disk sample_args (start []) = (inr tt, w') /\
    files w' = [("./ah_2_5_found.png", gca w')] /\
    ~ In (mkLogRecord DEBUG "Reading horizon 5") (stderr w').
Proof.
  assert (Hin : In 5 (horizons sample_args)) by (simpl; tauto).
  assert (Hout : ~ In 5 (available_apparent_horizons sample_horizons)).
  { simpl. intros [H | [H | [H | []]]]; discriminate. }
  split; [exact Hin |]. split; [exact Hout |].
  destruct (missing_horizon_is_skipped_silently
              sample_disk sample_args (mkSimDir sample_horizons) [] 5
              sample_opens (sample_readable _) Hin Hout)
    as (w' & Hrun & Hfiles & _ & _ & _ & _ & Hlog).
  exists w'. split; [exact Hrun |]. split; [exact Hfiles |].
  exact (proj2 (Hlog eq_refl)).
Defined.

Lemma empty_detection_series_is_plotted_witness :
  exists w' i c,
    main sample_disk undetected_args (start []) = (inr tt, w') /\
    nth_error [3; 1] i = Some 3 /\
    nth_error (collections (gca w')) i = Some c /\
    points c = [].
Proof.
  destruct (empty_detection_series_is_plotted
              sample_disk undetected_args (mkSimDir sample_horizons) [] 3
              (mkOneHorizon (mkAHVars (mkTimeSeries [] [])))
              eq_refl (sample_readable _)
              (or_introl eq_refl)
              (or_intror (or_intror (or_introl eq_refl))) eq_refl eq_refl)
    as (w' & i & c & Hrun & Hi & Hc & Hpts & _).
  exists w', i, c. repeat split; assumption.
Defined.

Lemma sample_same_data : same_data sample_args sample_disk lenient_disk.
Proof.
  split; [reflexivity |]. intros ah _ Hin. simpl in *.
  destruct (ah =? 1); [reflexivity |].
  destruct (ah =? 2); [reflexivity |].
  destruct (ah =? 3); [reflexivity | discriminate].
Qed.

Lemma same_inputs_same_output_witness :
  same_data sample_args sample_disk lenient_disk /\
  main sample_disk sample_args (start [])
  = main lenient_disk sample_args (start []) /\
  exists w1 w2 path fig,
    main sample_disk sample_args (start []) = (inr tt, w1) /\
    main lenient_disk sample_args (start (files w1)) = (inr tt, w2) /\
    files w1 = [(path, fig)] /\
    files w2 = [(path, fig); (path, fig)].
Proof.
  split; [exact sample_same_data |].
  destruct (same_inputs_same_output sample_disk lenient_disk sample_args
              sample_same_data) as [Hsame Htwice].
  split; [exact (Hsame (start [])) |].
  destruct (Htwice (mkSimDir sample_horizons) [] sample_parsed sample_opens
                   (sample_readable _))
    as (w1 & w2 & path & fig & H1 & H2 & F1 & F2 & _).
  exists w1, w2, path, fig. repeat split; assumption.
Defined.

Lemma repeated_request_is_repeated_witness :
  In 2 (available_apparent_horizons sample_horizons) /\
  count_occ Z.eq_dec (horizons repeat_args) 2 = 2%nat /\
  exists w' ticks,
    main sample_disk repeat_args (start []) = (inr tt, w') /\
    List.length (collections (gca w')) = 2%nat /\
    yticks (gca w') = Some ticks /\
    count_occ Z.eq_dec ticks 2 = 2%nat /\
    count_occ string_dec (split "_" "ah_2_2_5_found") "2" = 2%nat.
Proof.
  assert (Hin : In 2 (available_apparent_horizons sample_horizons))
    by (simpl; tauto).
  assert (Hne : parsed repeat_args) by (unfold parsed; simpl; discriminate).
  split; [exact Hin |]. split; [reflexivity |].
  destruct (repeated_request_is_repeated
              sample_disk repeat_args (mkSimDir sample_horizons) [] 2 2
              Hne eq_refl (sample_readable _) Hin eq_refl)
    as (w' & ticks & Hrun & Hcol & _ & Hticks & Hcount & _ & Hname).
  exists w', ticks. split; [exact Hrun |].
  split; [rewrite Hcol; reflexivity |].
  split; [exact Hticks |]. split; [exact Hcount | exact Hname].
Defined.

Lemma figure_name_ignores_the_simulation_witness :
  exists w1 w2 fig1 fig2,
    main sample_disk sample_args (start []) = (inr tt, w1) /\
    main other_disk sample_args (start []) = (inr tt, w2) /\
    files w1 = [("./ah_2_5_found.png", fig1)] /\
    files w2 = [("./ah_2_5_found.png", fig2)] /\
    exists rest,
      stderr (snd (main no_disk sample_args (start [])))
      = mkLogRecord DEBUG "Figname: ah_2_5_found" :: rest.
Proof.
  destruct (figure_name_ignores_the_simulation
              sample_disk other_disk sample_args
              (mkSimDir sample_horizons) (mkSimDir other_horizons) [] []
              sample_parsed sample_opens (sample_readable _)
              eq_refl (other_readable _))
    as (w1 & w2 & fig1 & fig2 & H1 & H2 & F1 & F2 & Hlog).
  exists w1, w2, fig1, fig2.
  split; [exact H1 |]. split; [exact H2 |].
  split; [exact F1 |]. split; [exact F2 |].
  exact (Hlog eq_refl no_disk []).
Defined.

(** * Runs that stop early *)

Section Outcomes.

Context {time : Type}.

(** The loop ends as [scan] says, from any state. *)
Lemma loop_outcome (sim_hor : HorizonsDir time) (R : list Z) :
  forall w,
    for_each R (plot_horizon sim_hor) w
    = (match snd (scan sim_hor R) with
       | Some (_, e) => inl e
       | None => inr tt
       end,
       extend (loop_records (fst (scan sim_hor R)) (snd (scan sim_hor R)))
              (map (series_of sim_hor) (fst (scan sim_hor R))) w).
Proof.
  induction R as [| ah R IH]; intros w.
  - simpl. unfold loop_records. simpl. now rewrite extend_nil.
  - cbn [for_each scan]. unfold bind at 1.
    destruct (py_in ah (available_apparent_horizons sim_hor)) eqn:Hin.
    + destruct (get_apparent_horizon sim_hor ah) as [e | h] eqn:Hget.
      * unfold plot_horizon. rewrite Hin. unfold bind at 1.
        rewrite logger_debug_run. unfold bind, lift. now rewrite Hget.
      * rewrite plot_horizon_available by eauto. rewrite IH.
        destruct (scan sim_hor R) as [done stop]. simpl.
        now rewrite extend_extend.
    + rewrite plot_horizon_missing by assumption. apply IH.
Qed.

Lemma bind_logger_debug {B : Type} (msg : string) (k : unit -> M time B)
      (w : World time) :
  bind (logger_debug msg) k w = k tt (extend [mkLogRecord DEBUG msg] [] w).
Proof. unfold bind. now rewrite logger_debug_run. Qed.

Lemma bind_lift_inl {A B : Type} (e : exn) (k : A -> M time B)
      (w : World time) :
  bind (lift (inl e)) k w = (inl e, w).
Proof. reflexivity. Qed.

Lemma bind_ret {A B : Type} (a : A) (k : A -> M time B) (w : World time) :
  bind (ret a) k w = k a w.
Proof. reflexivity. Qed.

(** Every run from a fresh process ends as [outcome] says. *)
Lemma main_outcome (SimDir : Disk time) (args : Args)
      (fs : list (string * Axes time)) :
  main SimDir args (start fs) = outcome SimDir args fs.
Proof.
  unfold main, outcome, ended, opening_records.
  unfold setup_matplotlib, basicConfig, setLevel.
  rewrite bind_modify.
  destruct (verbose args);
    rewrite ?bind_bind, ?bind_ret, ?bind_modify, bind_logger_debug;
    (destruct (SimDir (datadir args) (ignore_symlinks args)) as [e | sim];
     [reflexivity |]);
    rewrite bind_lift_inr, !bind_logger_debug;
    unfold bind at 1; rewrite loop_outcome, !extend_extend;
    destruct (scan (sim_horizons sim) (horizons args)) as [done [[ah e] |]];
    cbv [fst snd];
    try reflexivity;
    rewrite bind_logger_debug;
    unfold plt_ylabel, plt_xlabel, tick_params_y_minor, plt_ylim, plt_yticks,
           save_from_dir_filename_ext;
    rewrite !bind_modify;
    (destruct (py_min (horizons args)) as [e1 | lo];
     [rewrite bind_lift_inl | rewrite bind_lift_inr];
     [ | destruct (py_max (horizons args)) as [e2 | hi];
         [rewrite bind_lift_inl
         | rewrite bind_lift_inr, !bind_modify, !bind_logger_debug,
                   bind_modify, logger_debug_run ] ]).
  all: cbv [extend with_gca emitted effective_level levelno start
            logger_level handler_format rc_ready stderr gca files
            Z.leb Z.compare Pos.compare Pos.compare_cont andb
            collections ylabel xlabel minor_left ylim yticks new_axes].
  all: rewrite <- ?app_assoc, ?app_nil_r; reflexivity.
Qed.

(** ** What [scan] finds *)


Lemma scan_readable (sim_hor : HorizonsDir time) (R : list Z) :
  readable sim_hor R -> scan sim_hor R = (plotted sim_hor R, None).
Proof.
  induction R as [| a R IH]; intros Hread; [reflexivity |].
  assert (Hrest : readable sim_hor R).
  { intros x Hx. apply Hread. now right. }
  unfold plotted. simpl. fold (plotted sim_hor R).
  destruct (py_in a (available_apparent_horizons sim_hor)) eqn:Hin.
  - destruct (Hread a (or_introl eq_refl) Hin) as [h Hget].
    now rewrite Hget, (IH Hrest).
  - now apply IH.
Qed.

Lemma scan_complete (sim_hor : HorizonsDir time) (R : list Z) :
  snd (scan sim_hor R) = None -> readable sim_hor R.
Proof.
  induction R as [| a R IH]; simpl; intros Hnone x Hx Hav; [contradiction |].
  destruct (py_in a (available_apparent_horizons sim_hor)) eqn:Hin.
  - destruct (get_apparent_horizon sim_hor a) as [e' | h] eqn:Hget;
      [discriminate |].
    destruct (scan sim_hor R) as [done stop]. simpl in *.
    destruct Hx as [<- | Hx]; [eauto | now apply IH].
  - destruct Hx as [<- | Hx]; [congruence | now apply IH].
Qed.

(** The loop stops at the first requested horizon that is listed and
    cannot be read. *)
Lemma scan_stops_at (sim_hor : HorizonsDir time) (before after : list Z)
      (ah : Z) (e : exn) :
  readable sim_hor before ->
  In ah (available_apparent_horizons sim_hor) ->
  get_apparent_horizon sim_hor ah = inl e ->
  scan sim_hor (before ++ ah :: after)
  = (plotted sim_hor before, Some (ah, e)).
Proof.
  intros Hread Hav Hget. apply py_in_In in Hav.
  induction before as [| a before IH].
  - simpl. now rewrite Hav, Hget.
  - assert (Hrest : readable sim_hor before).
    { intros x Hx. apply Hread. now right. }
    unfold plotted. simpl. fold (plotted sim_hor before).
    destruct (py_in a (available_apparent_horizons sim_hor)) eqn:Hin.
    + destruct (Hread a (or_introl eq_refl) Hin) as [h Hh].
      now rewrite Hh, (IH Hrest).
    + now apply IH.
Qed.

Lemma map_str_inj (R1 R2 : list Z) : map str R1 = map str R2 -> R1 = R2.
Proof.
  revert R2. induction R1 as [| a R1 IH]; intros [| b R2]; simpl;
    try discriminate; [reflexivity |].
  intros [= Hab Hrest]. apply str_inj in Hab. apply IH in Hrest. congruence.
Qed.

Lemma loop_records_level (done : list Z) (stop : option (Z * exn)) :
  Forall (fun r => levelname r = DEBUG) (loop_records done stop).
Proof.
  unfold loop_records. apply Forall_app. split.
  - apply Forall_forall. intros r Hr. apply in_map_iff in Hr.
    now destruct Hr as [a [<- _]].
  - destruct stop as [[ah e] |]; repeat constructor.
Qed.

Lemma ended_level (args : Args) (records : list LogRecord)
      (fig : Axes time) (fs : list (string * Axes time)) :
  Forall (fun r => levelname r = DEBUG) records ->
  Forall (fun r => levelname r = DEBUG) (stderr (ended args records fig fs)).
Proof.
  intros H. unfold ended. cbn [stderr].
  destruct (verbose args); [assumption | apply Forall_nil].
Qed.

(** ** Properties of every run *)

(** X1.  Without [-v] a run logs nothing, whether it completes or
    stops on an exception. *)
Theorem quiet_run_logs_nothing
        (SimDir : Disk time) (args : Args) (fs : list (string * Axes time)) :
  verbose args = false ->
  stderr (snd (main SimDir args (start fs))) = [].
Proof.
  intros Hquiet. rewrite main_outcome. unfold outcome, ended.
  rewrite Hquiet.
  destruct (SimDir (datadir args) (ignore_symlinks args)) as [e | sim];
    [reflexivity |].
  destruct (scan (sim_horizons sim) (horizons args)) as [done [[ah e] |]];
    [reflexivity |].
  destruct (py_min (horizons args)); [reflexivity |].
  destruct (py_max (horizons args)); reflexivity.
Qed.


(** X3.  When the reader raises on a requested horizon that it lists,
    and the horizons requested before it are readable, the run stops
    with that exception: the horizons before it are plotted, the axes
    are left unlabelled and without limits or ticks, no file is written,
    and the last record of a verbose log names the horizon. *)
Theorem first_unreadable_horizon_stops_the_run
        (SimDir : Disk time) (args : Args) (sim : SimDirT time)
        (fs : list (string * Axes time))
        (before after : list Z) (ah : Z) (e : exn) :
  opens SimDir args sim ->
  horizons args = (before ++ ah :: after)%list ->
  readable (sim_horizons sim) before ->
  In ah (available_apparent_horizons (sim_horizons sim)) ->
  get_apparent_horizon (sim_horizons sim) ah = inl e ->
  exists w',
    main SimDir args (start fs) = (inl e, w') /\
    collections (gca w')
    = map (series_of (sim_horizons sim)) (plotted (sim_horizons sim) before) /\
    ylabel (gca w') = "" /\ xlabel (gca w') = "" /\
    ylim (gca w') = None /\ yticks (gca w') = None /\
    files w' = fs /\
    (verbose args = true ->
     exists records,
       stderr w'
       = (records
          ++ [mkLogRecord DEBUG ("Reading horizon " ++ str ah)])%list).
Proof.
  intros Hopen HR Hread Hav Hget.
  rewrite main_outcome. unfold outcome, ended. unfold opens in Hopen.
  rewrite Hopen, HR, (scan_stops_at _ _ _ _ _ Hread Hav Hget).
  eexists. split; [reflexivity |].
  cbn [gca collections ylabel xlabel ylim yticks files stderr].
  repeat (split; [reflexivity |]).
  intros ->. unfold loop_records.
  eexists. rewrite app_assoc. reflexivity.
Qed.

(** X4.  An iteration of the loop raises only what the reader raises
    for a listed horizon, and then leaves the plot as it was:
    [plt.scatter] never refuses its arrays, because the ordinates are
    made as long as the times. *)
Theorem loop_body_raises_only_reader_errors
        (sim_hor : HorizonsDir time) (ah : Z) (w w' : World time) (e : exn) :
  plot_horizon sim_hor ah w = (inl e, w') ->
  In ah (available_apparent_horizons sim_hor) /\
  get_apparent_horizon sim_hor ah = inl e /\
  gca w' = gca w /\ files w' = files w.
Proof.
  intros Hrun.
  destruct (py_in ah (available_apparent_horizons sim_hor)) eqn:Hin.
  - destruct (get_apparent_horizon sim_hor ah) as [e' | h] eqn:Hget.
    + unfold plot_horizon in Hrun. rewrite Hin in Hrun.
      rewrite bind_logger_debug, Hget, bind_lift_inl in Hrun.
      injection Hrun as <- <-. apply py_in_In in Hin.
      repeat split; try assumption.
      unfold extend. simpl. destruct w as [? ? ? ? [] ?]. simpl.
      now rewrite app_nil_r.
    + rewrite plot_horizon_available in Hrun by eauto. discriminate.
  - rewrite plot_horizon_missing in Hrun by assumption. discriminate.
Qed.

(** X5.  [-v] changes the log and nothing else: with or without it a
    run has the same outcome, the same plot and the same files. *)
Theorem verbosity_changes_only_the_log
        (SimDir : Disk time) (args : Args) (fs : list (string * Axes time))
        (v : bool) :
  fst (main SimDir (with_verbose v args) (start fs))
  = fst (main SimDir args (start fs)) /\
  gca (snd (main SimDir (with_verbose v args) (start fs)))
  = gca (snd (main SimDir args (start fs))) /\
  files (snd (main SimDir (with_verbose v args) (start fs)))
  = files (snd (main SimDir args (start fs))).
Proof.
  rewrite !main_outcome. unfold outcome, ended.
  change (datadir (with_verbose v args)) with (datadir args).
  change (ignore_symlinks (with_verbose v args)) with (ignore_symlinks args).
  change (horizons (with_verbose v args)) with (horizons args).
  change (outdir (with_verbose v args)) with (outdir args).
  change (fig_extension (with_verbose v args)) with (fig_extension args).
  change (get_figname (with_verbose v args)
                      (default_figname (with_verbose v args)))
    with (get_figname args (default_figname args)).
  destruct (SimDir (datadir args) (ignore_symlinks args)) as [e | sim];
    [repeat split |].
  destruct (scan (sim_horizons sim) (horizons args)) as [done [[ah e] |]];
    [repeat split |].
  destruct (py_min (horizons args)); [repeat split |].
  destruct (py_max (horizons args)); repeat split.
Qed.

(** X6.  Whatever happens, a run logs debug records only. *)
Theorem only_debug_records
        (SimDir : Disk time) (args : Args) (fs : list (string * Axes time)) :
  Forall (fun r => levelname r = DEBUG)
         (stderr (snd (main SimDir args (start fs)))).
Proof.
  rewrite main_outcome. unfold outcome, opening_records.
  destruct (SimDir (datadir args) (ignore_symlinks args)) as [e | sim];
    [| destruct (scan (sim_horizons sim) (horizons args))
         as [done [[ah e] |]];
       [| destruct (py_min (horizons args));
          [| destruct (py_max (horizons args))]]];
    cbn [snd]; apply ended_level;
    repeat first
      [ apply loop_records_level
      | apply Forall_nil
      | apply Forall_cons; [reflexivity |]
      | apply Forall_app; split ].
Qed.

(** X7.  Different requests have different default figure names. *)
Theorem default_figname_inj (args1 args2 : Args) :
  parsed args1 -> parsed args2 ->
  default_figname args1 = default_figname args2 ->
  horizons args1 = horizons args2.
Proof.
  intros H1 H2 Heq. apply (f_equal (split "_")) in Heq.
  rewrite !split_default_figname in Heq by assumption.
  injection Heq as Heq. apply app_inv_tail in Heq.
  now apply map_str_inj.
Qed.



(** X10.  In the plot of a completed run the y limits enclose
    everything: the lower limit is below the upper one, and every tick
    and every point plotted lies strictly between them. *)
Theorem limits_enclose_ticks_and_points
        (SimDir : Disk time) (args : Args) (fs : list (string * Axes time))
        (w' : World time) :
  main SimDir args (start fs) = (inr tt, w') ->
  exists bottom top,
    ylim (gca w') = Some (bottom, top) /\
    bottom < top /\
    (forall tick, In tick (horizons args) -> bottom < tick < top) /\
    yticks (gca w') = Some (horizons args) /\
    (forall c v,
        In c (collections (gca w')) -> In v (offsets_y c) ->
        bottom < v < top).
Proof.
  intros Hrun. rewrite main_outcome in Hrun. unfold outcome in Hrun.
  destruct (SimDir (datadir args) (ignore_symlinks args)) as [e | sim];
    [discriminate |].
  destruct (scan (sim_horizons sim) (horizons args)) as [done stop] eqn:Hscan.
  destruct stop as [[ah e] |]; [discriminate |].
  destruct (py_min (horizons args)) as [e | lo] eqn:Hlo; [discriminate |].
  destruct (py_max (horizons args)) as [e | hi] eqn:Hhi; [discriminate |].
  injection Hrun as <-. simpl.
  apply py_min_least in Hlo. destruct Hlo as [Hlo_in Hlo].
  apply py_max_greatest in Hhi. destruct Hhi as [Hhi_in Hhi].
  assert (Hticks : forall tick, In tick (horizons args) ->
                                lo - 1 < tick < hi + 1).
  { intros tick Hin. specialize (Hlo _ Hin). specialize (Hhi _ Hin). lia. }
  exists (lo - 1), (hi + 1). split; [reflexivity |].
  split; [specialize (Hticks _ Hlo_in); lia |].
  split; [exact Hticks |]. split; [reflexivity |].
  intros c v Hc Hv. apply in_map_iff in Hc. destruct Hc as [a [<- Ha]].
  simpl in Hv. apply repeat_spec in Hv. subst v. apply Hticks.
  assert (Hnone : snd (scan (sim_horizons sim) (horizons args)) = None)
    by now rewrite Hscan.
  apply scan_complete in Hnone. apply scan_readable in Hnone.
  rewrite Hscan in Hnone. injection Hnone as ->.
  now apply plotted_In in Ha.
Qed.

(** X11.  The figure that a completed run saves is labelled "Time" and
    "Apparent horizon", has no minor ticks on the y axis, and is the
    plot as the run leaves it: nothing is drawn after saving. *)
Theorem saved_figure_is_the_labelled_plot
        (SimDir : Disk time) (args : Args) (fs : list (string * Axes time))
        (w' : World time) :
  main SimDir args (start fs) = (inr tt, w') ->
  exists path fig,
    files w' = (path, fig) :: fs /\
    fig = gca w' /\
    xlabel fig = "Time" /\ ylabel fig = "Apparent horizon" /\
    minor_left fig = false.
Proof.
  intros Hrun. rewrite main_outcome in Hrun. unfold outcome in Hrun.
  destruct (SimDir (datadir args) (ignore_symlinks args)) as [e | sim];
    [discriminate |].
  destruct (scan (sim_horizons sim) (horizons args)) as [done stop].
  destruct stop as [[ah e] |]; [discriminate |].
  destruct (py_min (horizons args)) as [e | lo]; [discriminate |].
  destruct (py_max (horizons args)) as [e | hi]; [discriminate |].
  injection Hrun as <-. simpl. do 2 eexists. repeat split.
Qed.

(** X12.  A verbose run that completes logs, in this order: the figure
    name, the opening of the simulation, the horizons available, one
    line per horizon plotted in the order of the request, and the four
    closing lines. *)
Theorem verbose_log_of_a_completed_run
        (SimDir : Disk time) (args : Args) (sim : SimDirT time)
        (fs : list (string * Axes time)) (w' : World time) :
  verbose args = true ->
  opens SimDir args sim ->
  main SimDir args (start fs) = (inr tt, w') ->
  map message (stderr w')
  = ([("Figname: " ++ get_figname args (default_figname args))%string;
      "Prepared SimDir";
      ("Apparent horizons available: "
         ++ repr_list (available_apparent_horizons (sim_horizons sim)))%string]
     ++ map (fun ah => ("Reading horizon " ++ str ah)%string)
            (filter (fun ah =>
                       py_in ah (available_apparent_horizons
                                   (sim_horizons sim)))
                    (horizons args))
     ++ ["Plotting"; "Plotted"; "Saving"; "DONE"])%list.
Proof.
  intros Hv Hopen Hrun. rewrite main_outcome in Hrun.
  unfold outcome, ended, opening_records in Hrun. unfold opens in Hopen.
  rewrite Hopen, Hv in Hrun.
  destruct (scan (sim_horizons sim) (horizons args)) as [done stop] eqn:Hscan.
  destruct stop as [[ah e] |]; [discriminate |].
  assert (Hnone : snd (scan (sim_horizons sim) (horizons args)) = None)
    by now rewrite Hscan.
  apply scan_complete in Hnone. apply scan_readable in Hnone.
  rewrite Hscan in Hnone. injection Hnone as ->.
  destruct (py_min (horizons args)) as [e | lo]; [discriminate |].
  destruct (py_max (horizons args)) as [e | hi]; [discriminate |].
  injection Hrun as <-. unfold loop_records, plotted. simpl.
  rewrite app_nil_r, <- !app_assoc, !map_app, map_map. reflexivity.
Qed.

End Outcomes.

(** * The sample runs that stop early *)

(** Horizon 2 cannot be read: the run plots horizon 1, passes over
    horizon 5, and stops before horizon 3. *)
Example broken_run :
  main broken_disk broken_args (start [])
  = (inl (CollaboratorError "unreadable file"),
     mkWorld true DEBUG (Some "%(asctime)s - %(message)s")
       [mkLogRecord DEBUG "Figname: ah_1_5_2_3_found";
        mkLogRecord DEBUG "Prepared SimDir";
        mkLogRecord DEBUG "Apparent horizons available: [1, 2, 3]";
        mkLogRecord DEBUG "Reading horizon 1";
        mkLogRecord DEBUG "Reading horizon 2"]
       (mkAxes [mkPathCollection [0.5%Q; 1.5%Q] [1; 1] "o" 0.1%Q]
               "" "" true None None)
       []).
Proof. reflexivity. Qed.

Lemma broken_before_readable : readable broken_horizons [1; 5].
Proof.
  intros ah [<- | [<- | []]] Hin; simpl in *; [eauto | discriminate].
Qed.

Lemma quiet_run_logs_nothing_witness :
  verbose (with_verbose false broken_args) = false /\
  stderr (snd (main broken_disk (with_verbose false broken_args) (start [])))
  = [].
Proof.
  split; [reflexivity |].
  exact (quiet_run_logs_nothing broken_disk (with_verbose false broken_args)
                                [] eq_refl).
Defined.

Lemma first_unreadable_horizon_stops_the_run_witness :
  exists w',
    main broken_disk broken_args (start [])
    = (inl (CollaboratorError "unreadable file"), w') /\
    collections (gca w') = [mkPathCollection [0.5%Q; 1.5%Q] [1; 1] "o" 0.1%Q] /\
    files w' = [].
Proof.
  destruct (first_unreadable_horizon_stops_the_run
              broken_disk broken_args (mkSimDir broken_horizons) []
              [1; 5] [3] 2 (CollaboratorError "unreadable file")
              eq_refl eq_refl broken_before_readable
              (or_intror (or_introl eq_refl)) eq_refl)
    as (w' & Hrun & Hcol & _ & _ & _ & _ & Hfiles & _).
  exists w'. split; [exact Hrun |]. split; [exact Hcol | exact Hfiles].
Defined.

Lemma loop_body_raises_only_reader_errors_witness :
  get_apparent_horizon broken_horizons 2
  = inl (CollaboratorError "unreadable file").
Proof.
  exact (proj1 (proj2 (loop_body_raises_only_reader_errors
                         broken_horizons 2 (start []) _ _ eq_refl))).
Defined.

Lemma default_figname_inj_witness :
  horizons sample_args = horizons (with_verbose false sample_args).
Proof.
  apply default_figname_inj.
  - exact sample_parsed.
  - unfold parsed; simpl; discriminate.
  - reflexivity.
Defined.



Lemma limits_enclose_ticks_and_points_witness :
  exists bottom top,
    ylim (gca (snd (main sample_disk sample_args (start []))))
    = Some (bottom, top) /\
    bottom < top /\
    (forall tick, In tick [2; 5] -> bottom < tick < top).
Proof.
  destruct (limits_enclose_ticks_and_points
              sample_disk sample_args [] _ sample_run)
    as (bottom & top & Hlim & Hlt & Hticks & _).
  exists bottom, top. split; [exact Hlim |]. split; [exact Hlt | exact Hticks].
Defined.

Lemma saved_figure_is_the_labelled_plot_witness :
  exists path fig,
    files (snd (main sample_disk sample_args (start []))) = [(path, fig)] /\
    xlabel fig = "Time" /\ ylabel fig = "Apparent horizon".
Proof.
  destruct (saved_figure_is_the_labelled_plot
              sample_disk sample_args [] _ sample_run)
    as (path & fig & Hfiles & _ & Hx & Hy & _).
  exists path, fig. split; [exact Hfiles |]. split; [exact Hx | exact Hy].
Defined.

Lemma verbose_log_of_a_completed_run_witness :
  map message (stderr (snd (main sample_disk sample_args (start []))))
  = ["Figname: ah_2_5_found"; "Prepared SimDir";
     "Apparent horizons available: [1, 2, 3]"; "Reading horizon 2";
     "Plotting"; "Plotted"; "Saving"; "DONE"].
Proof.
  exact (verbose_log_of_a_completed_run
           sample_disk sample_args (mkSimDir sample_horizons) [] _
           eq_refl sample_opens sample_run).
Defined.
